(** * Rental marketplace backend: the request handlers of [server.js]

    The seven Express handlers ([/register], [/login], [POST /items],
    [GET /items], [/items/search], [/items/:id/book], [/items/:id/return])
    are embedded as functions from a store and the request's fields to a
    response and the store afterwards.  One request is handled at a time.

    What the handlers take from outside the file is kept apart:
    - the JavaScript engine ([new Date(s)], [Number(s)]), bcrypt and the part
      of the database's regular-expression engine that is not modelled here
      are the fields of a [Runtime];
    - Mongoose's behaviour on the two schemas (defaults, required fields,
      casting of a [Date] path, the unique indexes, [find] with a filter) is
      written out in the section on the models.

    The handlers come in two layers.  [register], [login], [bookItem] and
    [returnItem], with [addItem], [listItems] and [searchItems], take
    requests whose fields have the type the schema gives them: strings
    (absent as [None]), a number for [pricePerDay], an ObjectId for [:id].
    [post_register], [post_login], [post_book] and [post_return] take the
    request as it arrives: any JSON value for [email] and [password], any
    string for [:id]; on a request of the first kind they are the handlers
    of the first layer.  Strings are byte strings. *)

From Stdlib Require Import ZArith QArith List String Ascii Bool Btauto Lia.
Import ListNotations.

Local Close Scope Q_scope.
Local Open Scope N_scope.
Local Open Scope string_scope.
Local Open Scope list_scope.

(** ** JavaScript values *)

Module JS.

(** A JavaScript number other than NaN. *)
Inductive number : Type :=
| NegInf
| Fin (q : Q)
| PosInf.

Definition is_zero (n : number) : bool :=
  match n with
  | Fin q => (Qnum q =? 0)%Z
  | _ => false
  end.

(** [a <= b] on numbers, as [$lte] and [$gte] compare them. *)
Definition num_leb (a b : number) : bool :=
  match a, b with
  | NegInf, _ => true
  | _, PosInf => true
  | Fin x, Fin y => Qle_bool x y
  | _, _ => false
  end.

(** [ToBoolean] on a request field that is a string or [undefined]. *)
Definition truthy (v : option string) : bool :=
  match v with
  | Some s => negb (s =? "")
  | None => false
  end.

(** [ToBoolean] on a request field that is a number or [undefined]. *)
Definition truthy_num (v : option number) : bool :=
  match v with
  | Some n => negb (is_zero n)
  | None => false
  end.

(** A JSON value of a request body, or [undefined] for an absent field; an
    object or an array is kept as its JSON text. *)
Inductive JsonValue : Type :=
| VUndefined
| VNull
| VBool (b : bool)
| VNumber (n : number)
| VString (s : string)
| VCompound (text : string).

(** [ToBoolean]. *)
Definition truthy_value (v : JsonValue) : bool :=
  match v with
  | VUndefined | VNull => false
  | VBool b => b
  | VNumber n => negb (is_zero n)
  | VString s => negb (s =? "")
  | VCompound _ => true
  end.

(** A field that is a string, or absent, as a JSON value. *)
Definition of_field (v : option string) : JsonValue :=
  match v with
  | Some s => VString s
  | None => VUndefined
  end.

(** A [Date] object: a time value in milliseconds since the epoch, or the
    invalid date (time value NaN). *)
Inductive Date : Type :=
| InvalidDate
| ValidDate (t : Z).

End JS.
Export JS.

(** ** The persisted records *)

Definition ObjectId : Type := nat.

Record User : Type := mkUser {
  email : string;
  password : string
}.

(** ** What the handlers call outside the file *)

Record Runtime : Type := mkRuntime {
  (** [Date.parse(s)]: [None] is NaN. *)
  Date_parse : string -> option Z;
  (** [Number(s)] on a string: [None] is NaN. *)
  ToNumber : string -> option number;
  (** [bcrypt.hash(password, 8)] on a string, with the salt it draws. *)
  bcrypt_hash : string -> string -> string;
  (** [bcrypt.compare(password, hash)] on two strings. *)
  bcrypt_compare : string -> string -> bool;
  (** Mongoose's cast of a string to an ObjectId: [None] when the string is
      no ObjectId and the cast fails. *)
  ObjectId_cast : string -> option ObjectId;
  (** [User.findOne({ email: v })] for a value [v] that is no string, on the
      stored users: [None] when the query is refused, otherwise the user it
      finds, if any. *)
  findOne_other : JsonValue -> list User -> option (option User);
  (** The schema's cast to [String] of a value that is no string: [None]
      when the cast fails. *)
  cast_string_other : JsonValue -> option string;
  (** The database's regular-expression engine, option [i], on a pattern
      outside the fragment modelled below: [None] when the query is refused,
      otherwise the set of strings it searches successfully. *)
  regex_other : string -> option (string -> bool);
  (** Whether that engine finds a pattern of the fragment, its ASCII letters
      given in lower case, in a string, when the pattern or the string has a
      character outside ASCII. *)
  regex_unicode : string -> string -> bool
}.

(** A [Date] path of a stored document: never assigned, [null], or a date. *)
Inductive DateField : Type :=
| Absent
| Null
| DateVal (t : Z).

Record Item : Type := mkItem {
  _id : ObjectId;
  title : string;
  description : option string;
  pricePerDay : number;
  category : string;
  imageUrl : option string;
  available : bool;
  ownerEmail : string;
  rentedFrom : DateField;
  rentedTill : DateField;
  createdAt : Z
}.

(** The two collections, and the next ObjectId the driver hands out. *)
Record Store : Type := mkStore {
  users : list User;
  items : list Item;
  next_oid : ObjectId
}.

Definition empty_store : Store :=
  {| users := []; items := []; next_oid := 0%nat |}.

(** ** Responses *)

Inductive Json : Type :=
| JMsg (msg : string)
| JMsgItemId (msg : string) (itemId : ObjectId)
| JItems (docs : list Item).

Record Response : Type := mkResponse {
  status : N;
  json : Json
}.

(** [res.json(b)] answers with status 200. *)
Definition res_json (b : Json) : Response := {| status := 200; json := b |}.

Definition server_error : Response :=
  {| status := 500; json := JMsg "Server error" |}.

(** ** Mongoose and bcrypt: what an operation gives back *)

Inductive MongooseError : Type :=
| CastError
| ValidatorError
| DuplicateKey
| ServerError
| IllegalArguments.

Inductive Result (A : Type) : Type :=
| Ok (a : A)
| Throw (e : MongooseError).
Arguments Ok {A} a.
Arguments Throw {A} e.

(** [try { ... } catch (err) { res.status(500).json({ msg: "Server error" }) }]:
    a rejected operation has written nothing. *)
Definition try_catch (db : Store) (r : Result (Response * Store))
  : Response * Store :=
  match r with
  | Ok out => out
  | Throw _ => (server_error, db)
  end.

(** *** The User model *)

Definition User_findOne (e : string) (db : Store) : option User :=
  find (fun u => email u =? e) (users db).

(** [new User({email, password}).save()]: both paths are required, and
    [email] has a unique index. *)
Definition User_save (u : User) (db : Store) : Result Store :=
  if (email u =? "") || (password u =? "") then Throw ValidatorError
  else match User_findOne (email u) db with
       | Some _ => Throw DuplicateKey
       | None =>
           Ok {| users := users db ++ [u];
                 items := items db;
                 next_oid := next_oid db |}
       end.

(** *** The Item model *)

(** [new Item({title, description, pricePerDay, category, imageUrl,
    ownerEmail})]: the schema's defaults fill [available] and [createdAt],
    the driver gives the [_id]; then the required validators run, as [save]
    runs them.  A required string must be present and not empty, a required
    number present. *)
Definition Item_new (oid : ObjectId) (now : Z)
    (title' description' : option string) (pricePerDay' : option number)
    (category' imageUrl' ownerEmail' : option string) : Result Item :=
  match title', pricePerDay', category', ownerEmail' with
  | Some t, Some p, Some c, Some o =>
      if (t =? "") || (c =? "") || (o =? "") then Throw ValidatorError
      else Ok {| _id := oid;
                 title := t;
                 description := description';
                 pricePerDay := p;
                 category := c;
                 imageUrl := imageUrl';
                 available := true;
                 ownerEmail := o;
                 rentedFrom := Absent;
                 rentedTill := Absent;
                 createdAt := now |}
  | _, _, _, _ => Throw ValidatorError
  end.

(** Inserting a new document. *)
Definition Item_insert (it : Item) (db : Store) : Store :=
  {| users := users db;
     items := items db ++ [it];
     next_oid := S (next_oid db) |}.

Definition Item_findById (id : ObjectId) (db : Store) : option Item :=
  find (fun it => _id it =? id)%nat (items db).

(** A document loaded by [findById], with the cast errors its assignments
    have left on it ([doc.invalidate]). *)
Record Document : Type := mkDocument {
  doc : Item;
  castErrors : list string
}.

Definition load (it : Item) : Document := {| doc := it; castErrors := [] |}.

Definition with_available (b : bool) (it : Item) : Item :=
  {| _id := _id it; title := title it; description := description it;
     pricePerDay := pricePerDay it; category := category it;
     imageUrl := imageUrl it; available := b; ownerEmail := ownerEmail it;
     rentedFrom := rentedFrom it; rentedTill := rentedTill it;
     createdAt := createdAt it |}.

Definition with_rentedFrom (d : DateField) (it : Item) : Item :=
  {| _id := _id it; title := title it; description := description it;
     pricePerDay := pricePerDay it; category := category it;
     imageUrl := imageUrl it; available := available it;
     ownerEmail := ownerEmail it;
     rentedFrom := d; rentedTill := rentedTill it;
     createdAt := createdAt it |}.

Definition with_rentedTill (d : DateField) (it : Item) : Item :=
  {| _id := _id it; title := title it; description := description it;
     pricePerDay := pricePerDay it; category := category it;
     imageUrl := imageUrl it; available := available it;
     ownerEmail := ownerEmail it;
     rentedFrom := rentedFrom it; rentedTill := d;
     createdAt := createdAt it |}.

(** [item.available = b]. *)
Definition set_available (b : bool) (m : Document) : Document :=
  {| doc := with_available b (doc m); castErrors := castErrors m |}.

(** Assigning a [Date] object to a [Date] path: the schema type casts it.
    Mongoose's date cast accepts a [Date] only when its time value is a
    number; an invalid date fails it ("Cast to date failed for value
    Invalid Date"), the path keeps its value and the error stays on the
    document until [save]. *)
Definition set_date_path (path : string) (upd : DateField -> Item -> Item)
    (d : Date) (m : Document) : Document :=
  match d with
  | ValidDate t => {| doc := upd (DateVal t) (doc m); castErrors := castErrors m |}
  | InvalidDate => {| doc := doc m; castErrors := path :: castErrors m |}
  end.

(** Assigning [null] to a [Date] path. *)
Definition set_null_path (upd : DateField -> Item -> Item) (m : Document)
  : Document :=
  {| doc := upd Null (doc m); castErrors := castErrors m |}.

(** Replaces the stored document that has the same [_id]. *)
Fixpoint replace_item (it' : Item) (l : list Item) : list Item :=
  match l with
  | [] => []
  | x :: r =>
      if (_id x =? _id it')%nat then it' :: r else x :: replace_item it' r
  end.

(** [item.save()] on a loaded document: validation first, then the write.
    A document that carries a cast error fails validation, [save] rejects and
    nothing is written. *)
Definition Document_save (m : Document) (db : Store) : Result Store :=
  match castErrors m with
  | [] => Ok {| users := users db;
                items := replace_item (doc m) (items db);
                next_oid := next_oid db |}
  | _ :: _ => Throw ValidatorError
  end.

(** *** Queries on the Item collection *)

Module Query.

(** [{ $gte: a, $lte: b }], each bound optional; a bound that is [None]
    inside is NaN. *)
Record range : Type := mkRange {
  gte : option (option number);
  lte : option (option number)
}.

(** The filter object the [GET /items] handler fills in. *)
Record t : Type := mkFilter {
  category : option string;
  available : option bool;
  ownerEmail : option string;
  pricePerDay : option range
}.

End Query.

(** Casting a filter to the schema: NaN is no number. *)
Definition bound_ok (b : option (option number)) : bool :=
  match b with
  | Some None => false
  | _ => true
  end.

Definition filter_casts (f : Query.t) : bool :=
  match Query.pricePerDay f with
  | Some r => bound_ok (Query.gte r) && bound_ok (Query.lte r)
  | None => true
  end.

Definition lower_ok (b : option (option number)) (p : number) : bool :=
  match b with
  | Some (Some lo) => num_leb lo p
  | _ => true
  end.

Definition upper_ok (b : option (option number)) (p : number) : bool :=
  match b with
  | Some (Some hi) => num_leb p hi
  | _ => true
  end.

(** Whether a stored item matches a filter: every key present must hold. *)
Definition matches (f : Query.t) (it : Item) : bool :=
  match Query.category f with
  | Some c => category it =? c
  | None => true
  end
  && match Query.available f with
     | Some a => Bool.eqb (available it) a
     | None => true
     end
  && match Query.ownerEmail f with
     | Some o => ownerEmail it =? o
     | None => true
     end
  && match Query.pricePerDay f with
     | Some r => lower_ok (Query.gte r) (pricePerDay it)
                 && upper_ok (Query.lte r) (pricePerDay it)
     | None => true
     end.

(** [Item.find(filter)]. *)
Definition Item_find (f : Query.t) (db : Store) : Result (list Item) :=
  if filter_casts f then Ok (filter (matches f) (items db))
  else Throw CastError.

(** *** Regular expressions: the fragment without operators

    A pattern made of ordinary characters and [.] only, on ASCII text.
    With option [i] an ASCII letter matches itself in either case; [.]
    matches any character but a line feed.  [$regex] searches: the pattern
    may match anywhere in the string.  A pattern with any other operator in
    it, and a pattern or a string with a character outside ASCII, where the
    engine folds case and counts characters its own way, are left to the
    runtime. *)

Module Regex.

Inductive atom : Type :=
| Lit (c : ascii)
| AnyChar.

Definition metacharacters : list ascii :=
  list_ascii_of_string "\^$.|?*+()[]{}".

Definition is_meta (c : ascii) : bool :=
  existsb (Ascii.eqb c) metacharacters.

Fixpoint parse (p : string) : option (list atom) :=
  match p with
  | EmptyString => Some []
  | String c p' =>
      match parse p' with
      | Some atoms =>
          if Ascii.eqb c "." then Some (AnyChar :: atoms)
          else if is_meta c then None
          else Some (Lit c :: atoms)
      | None => None
      end
  end.

(** ASCII case folding. *)
Definition lower (c : ascii) : ascii :=
  let n := nat_of_ascii c in
  if ((65 <=? n) && (n <=? 90))%nat then ascii_of_nat (n + 32)%nat else c.

Definition atom_matches (a : atom) (c : ascii) : bool :=
  match a with
  | Lit p => Ascii.eqb (lower p) (lower c)
  | AnyChar => negb (Ascii.eqb c "010")
  end.

(** The atoms match a prefix of [s]. *)
Fixpoint match_here (atoms : list atom) (s : string) : bool :=
  match atoms, s with
  | [], _ => true
  | a :: atoms', String c s' => atom_matches a c && match_here atoms' s'
  | _ :: _, EmptyString => false
  end.

(** The atoms match somewhere in [s]. *)
Fixpoint search (atoms : list atom) (s : string) : bool :=
  match_here atoms s
  || match s with
     | EmptyString => false
     | String _ s' => search atoms s'
     end.

Definition is_ascii (c : ascii) : bool := (nat_of_ascii c <? 128)%nat.

Fixpoint ascii_string (s : string) : bool :=
  match s with
  | EmptyString => true
  | String c s' => is_ascii c && ascii_string s'
  end.

End Regex.

(** A string with its ASCII letters in lower case. *)
Fixpoint lower_string (s : string) : string :=
  match s with
  | EmptyString => EmptyString
  | String c s' => String (Regex.lower c) (lower_string s')
  end.

(** Compiling the operand of [$regex] with [$options: "i"].  An operand that
    is [undefined] is no pattern: the query is refused.  The empty pattern
    is found in every string.  A pattern of the fragment is searched as
    above in an ASCII string when it is ASCII itself; otherwise the runtime
    decides, and option [i] makes it blind to the case of the pattern's
    ASCII letters. *)
Definition regex_compile (rt : Runtime) (q : option string)
  : option (string -> bool) :=
  match q with
  | Some p =>
      match Regex.parse p with
      | Some atoms =>
          Some (fun s =>
                  if (p =? "") || (Regex.ascii_string p && Regex.ascii_string s)
                  then Regex.search atoms s
                  else regex_unicode rt (lower_string p) s)
      | None => regex_other rt p
      end
  | None => None
  end.

(** [Item.find({ title: { $regex: q, $options: "i" } })]. *)
Definition Item_find_regex (rt : Runtime) (q : option string) (db : Store)
  : Result (list Item) :=
  match regex_compile rt q with
  | Some found => Ok (filter (fun it => found (title it)) (items db))
  | None => Throw ServerError
  end.

(** ** The handlers *)

Section Handlers.

Variable rt : Runtime.

(** [new Date(v)] on a request field that is a string or [undefined]. *)
Definition Date_new (v : option string) : Date :=
  match v with
  | Some s =>
      match Date_parse rt s with
      | Some t => ValidDate t
      | None => InvalidDate
      end
  | None => InvalidDate
  end.

(** [POST /register] on an email and a password that are strings or absent;
    [salt] is the salt bcrypt draws. *)
Definition register (salt : string) (email' password' : option string)
    (db : Store) : Response * Store :=
  try_catch db
    (if negb (truthy email') || negb (truthy password') then
       Ok ({| status := 400; json := JMsg "Email and password required" |}, db)
     else
       let e := match email' with Some s => s | None => "" end in
       let p := match password' with Some s => s | None => "" end in
       match User_findOne e db with
       | Some _ =>
           Ok ({| status := 400; json := JMsg "User already exists" |}, db)
       | None =>
           let hashedPassword := bcrypt_hash rt p salt in
           match User_save {| email := e; password := hashedPassword |} db with
           | Ok db' =>
               Ok ({| status := 201;
                      json := JMsg "User registered successfully" |}, db')
           | Throw err => Throw err
           end
       end).

(** [POST /login] on an email and a password that are strings or absent. *)
Definition login (email' password' : option string) (db : Store)
  : Response * Store :=
  try_catch db
    (if negb (truthy email') || negb (truthy password') then
       Ok ({| status := 400; json := JMsg "Email and password required" |}, db)
     else
       let e := match email' with Some s => s | None => "" end in
       let p := match password' with Some s => s | None => "" end in
       match User_findOne e db with
       | None =>
           Ok ({| status := 400; json := JMsg "Invalid email or password" |}, db)
       | Some user =>
           let isMatch := bcrypt_compare rt p (password user) in
           if negb isMatch then
             Ok ({| status := 400; json := JMsg "Invalid email or password" |}, db)
           else Ok (res_json (JMsg "Login successful"), db)
       end).

(** [POST /items] on fields of the schema's types; [now] is [Date.now()]
    when the document is built. *)
Definition addItem (now : Z) (title' description' : option string)
    (pricePerDay' : option number)
    (category' imageUrl' ownerEmail' : option string) (db : Store)
  : Response * Store :=
  try_catch db
    (if negb (truthy title') || negb (truthy_num pricePerDay')
        || negb (truthy category') || negb (truthy ownerEmail') then
       Ok ({| status := 400; json := JMsg "Missing required fields" |}, db)
     else
       match Item_new (next_oid db) now title' description' pricePerDay'
               category' imageUrl' ownerEmail' with
       | Ok item =>
           Ok ({| status := 201;
                  json := JMsgItemId "Item added successfully" (_id item) |},
               Item_insert item db)
       | Throw err => Throw err
       end).

(** [GET /items]: the filter built from the query string. *)
Definition build_filter (category' minPrice maxPrice available' ownerEmail'
    : option string) : Query.t :=
  {| Query.category := if truthy category' then category' else None;
     Query.available :=
       match available' with
       | Some a => Some (a =? "true")
       | None => None
       end;
     Query.ownerEmail := if truthy ownerEmail' then ownerEmail' else None;
     Query.pricePerDay :=
       if truthy minPrice || truthy maxPrice then
         Some {| Query.gte :=
                   match minPrice with
                   | Some s => if truthy minPrice then Some (ToNumber rt s)
                               else None
                   | None => None
                   end;
                 Query.lte :=
                   match maxPrice with
                   | Some s => if truthy maxPrice then Some (ToNumber rt s)
                               else None
                   | None => None
                   end |}
       else None |}.

Definition listItems (category' minPrice maxPrice available' ownerEmail'
    : option string) (db : Store) : Response * Store :=
  try_catch db
    (let filter :=
       build_filter category' minPrice maxPrice available' ownerEmail' in
     match Item_find filter db with
     | Ok docs => Ok (res_json (JItems docs), db)
     | Throw err => Throw err
     end).

(** [GET /items/search]. *)
Definition searchItems (q : option string) (db : Store) : Response * Store :=
  try_catch db
    (match Item_find_regex rt q db with
     | Ok docs => Ok (res_json (JItems docs), db)
     | Throw err => Throw err
     end).

(** [POST /items/:id/book] once [:id] has cast to an ObjectId. *)
Definition bookItem (id : ObjectId) (startDate endDate : option string)
    (db : Store) : Response * Store :=
  try_catch db
    (match Item_findById id db with
     | None => Ok ({| status := 404; json := JMsg "Item not found" |}, db)
     | Some found =>
         if negb (available found) then
           Ok ({| status := 400; json := JMsg "Item already rented" |}, db)
         else
           let item := load found in
           let item := set_available false item in
           let item :=
             set_date_path "rentedFrom" with_rentedFrom
               (Date_new startDate) item in
           let item :=
             set_date_path "rentedTill" with_rentedTill
               (Date_new endDate) item in
           match Document_save item db with
           | Ok db' => Ok (res_json (JMsg "Item booked successfully"), db')
           | Throw err => Throw err
           end
     end).

(** [POST /items/:id/return] once [:id] has cast to an ObjectId. *)
Definition returnItem (id : ObjectId) (db : Store) : Response * Store :=
  try_catch db
    (match Item_findById id db with
     | None => Ok ({| status := 404; json := JMsg "Item not found" |}, db)
     | Some found =>
         let item := load found in
         let item := set_available true item in
         let item := set_null_path with_rentedFrom item in
         let item := set_null_path with_rentedTill item in
         match Document_save item db with
         | Ok db' => Ok (res_json (JMsg "Item returned successfully"), db')
         | Throw err => Throw err
         end
     end).

End Handlers.

(** ** The handlers on requests as they arrive *)

Section Routes.

Variable rt : Runtime.

(** [User.findOne({ email: v })]. *)
Definition User_findOne_value (v : JsonValue) (db : Store)
  : Result (option User) :=
  match v with
  | VString e => Ok (User_findOne e db)
  | _ =>
      match findOne_other rt v (users db) with
      | Some found => Ok found
      | None => Throw CastError
      end
  end.

(** [bcrypt.hash(v, 8)]: bcryptjs takes a string and rejects anything else
    ("Illegal arguments"). *)
Definition bcrypt_hash_value (v : JsonValue) (salt : string) : Result string :=
  match v with
  | VString p => Ok (bcrypt_hash rt p salt)
  | _ => Throw IllegalArguments
  end.

(** [bcrypt.compare(v, hash)], likewise. *)
Definition bcrypt_compare_value (v : JsonValue) (hash : string) : Result bool :=
  match v with
  | VString p => Ok (bcrypt_compare rt p hash)
  | _ => Throw IllegalArguments
  end.

(** The schema's cast of a document's [String] path. *)
Definition cast_string (v : JsonValue) : Result string :=
  match v with
  | VString s => Ok s
  | _ =>
      match cast_string_other rt v with
      | Some s => Ok s
      | None => Throw CastError
      end
  end.

(** [POST /register] on [req.body]. *)
Definition post_register (salt : string) (email' password' : JsonValue)
    (db : Store) : Response * Store :=
  try_catch db
    (if negb (truthy_value email') || negb (truthy_value password') then
       Ok ({| status := 400; json := JMsg "Email and password required" |}, db)
     else
       match User_findOne_value email' db with
       | Throw err => Throw err
       | Ok (Some _) =>
           Ok ({| status := 400; json := JMsg "User already exists" |}, db)
       | Ok None =>
           match bcrypt_hash_value password' salt with
           | Throw err => Throw err
           | Ok hashedPassword =>
               match cast_string email' with
               | Throw err => Throw err
               | Ok e =>
                   match User_save {| email := e; password := hashedPassword |}
                           db with
                   | Ok db' =>
                       Ok ({| status := 201;
                              json := JMsg "User registered successfully" |},
                           db')
                   | Throw err => Throw err
                   end
               end
           end
       end).

(** [POST /login] on [req.body]. *)
Definition post_login (email' password' : JsonValue) (db : Store)
  : Response * Store :=
  try_catch db
    (if negb (truthy_value email') || negb (truthy_value password') then
       Ok ({| status := 400; json := JMsg "Email and password required" |}, db)
     else
       match User_findOne_value email' db with
       | Throw err => Throw err
       | Ok None =>
           Ok ({| status := 400; json := JMsg "Invalid email or password" |}, db)
       | Ok (Some user) =>
           match bcrypt_compare_value password' (password user) with
           | Throw err => Throw err
           | Ok isMatch =>
               if negb isMatch then
                 Ok ({| status := 400;
                        json := JMsg "Invalid email or password" |}, db)
               else Ok (res_json (JMsg "Login successful"), db)
           end
       end).

(** [Item.findById(req.params.id)]: the string is cast to an ObjectId
    first; when it is none, [findById] rejects ("Cast to ObjectId
    failed"). *)
Definition Item_findById_param (id : string) (db : Store)
  : Result (option Item) :=
  match ObjectId_cast rt id with
  | Some oid => Ok (Item_findById oid db)
  | None => Throw CastError
  end.

(** [POST /items/:id/book] on [req.params.id] and [req.body]. *)
Definition post_book (id : string) (startDate endDate : option string)
    (db : Store) : Response * Store :=
  try_catch db
    (match Item_findById_param id db with
     | Throw err => Throw err
     | Ok None => Ok ({| status := 404; json := JMsg "Item not found" |}, db)
     | Ok (Some found) =>
         if negb (available found) then
           Ok ({| status := 400; json := JMsg "Item already rented" |}, db)
         else
           let item := load found in
           let item := set_available false item in
           let item :=
             set_date_path "rentedFrom" with_rentedFrom
               (Date_new rt startDate) item in
           let item :=
             set_date_path "rentedTill" with_rentedTill
               (Date_new rt endDate) item in
           match Document_save item db with
           | Ok db' => Ok (res_json (JMsg "Item booked successfully"), db')
           | Throw err => Throw err
           end
     end).

(** [POST /items/:id/return] on [req.params.id]. *)
Definition post_return (id : string) (db : Store) : Response * Store :=
  try_catch db
    (match Item_findById_param id db with
     | Throw err => Throw err
     | Ok None => Ok ({| status := 404; json := JMsg "Item not found" |}, db)
     | Ok (Some found) =>
         let item := load found in
         let item := set_available true item in
         let item := set_null_path with_rentedFrom item in
         let item := set_null_path with_rentedTill item in
         match Document_save item db with
         | Ok db' => Ok (res_json (JMsg "Item returned successfully"), db')
         | Throw err => Throw err
         end
     end).

End Routes.

(** The record a successful booking writes, the record a return writes, and
    the store after the write. *)
Definition booked (it : Item) (t1 t2 : Z) : Item :=
  with_rentedTill (DateVal t2)
    (with_rentedFrom (DateVal t1) (with_available false it)).

Definition returned (it : Item) : Item :=
  with_rentedTill Null (with_rentedFrom Null (with_available true it)).

Definition write_item (it' : Item) (db : Store) : Store :=
  {| users := users db;
     items := replace_item it' (items db);
     next_oid := next_oid db |}.

(** ** The operations as one step function *)

Inductive Request : Type :=
| Register (salt : string) (email' password' : option string)
| Login (email' password' : option string)
| AddItem (now : Z) (title' description' : option string)
    (pricePerDay' : option number)
    (category' imageUrl' ownerEmail' : option string)
| ListItems (category' minPrice maxPrice available' ownerEmail' : option string)
| SearchItems (q : option string)
| BookItem (id : ObjectId) (startDate endDate : option string)
| ReturnItem (id : ObjectId).

Definition handle (rt : Runtime) (req : Request) (db : Store)
  : Response * Store :=
  match req with
  | Register salt e p => register rt salt e p db
  | Login e p => login rt e p db
  | AddItem now t d p c i o => addItem now t d p c i o db
  | ListItems c lo hi a o => listItems rt c lo hi a o db
  | SearchItems q => searchItems rt q db
  | BookItem id s e => bookItem rt id s e db
  | ReturnItem id => returnItem id db
  end.

(** The stores the server can be in: it starts empty and handles requests. *)
Inductive reachable (rt : Runtime) : Store -> Prop :=
| reachable_empty : reachable rt empty_store
| reachable_step req db :
    reachable rt db -> reachable rt (snd (handle rt req db)).

(** The store after a sequence of requests, handled in order. *)
Fixpoint run (rt : Runtime) (reqs : list Request) (db : Store) : Store :=
  match reqs with
  | [] => db
  | req :: rest => run rt rest (snd (handle rt req db))
  end.

(** Identifiers in use are below the next one, and no two stored items share
    one. *)
Definition ids_fresh (db : Store) : Prop :=
  (forall it, In it (items db) -> (_id it < next_oid db)%nat)
  /\ NoDup (map _id (items db)).

(** What one request does to the Item collection: nothing, one document
    appended, or one document rewritten by a booking or by a return. *)

Inductive store_step (db : Store) (req : Request) (db' : Store) : Prop :=
| step_same :
    items db' = items db -> next_oid db' = next_oid db ->
    store_step db req db'
| step_add now t d p c i o item :
    req = AddItem now t d p c i o ->
    available item = true -> rentedFrom item = Absent ->
    rentedTill item = Absent -> _id item = next_oid db ->
    items db' = items db ++ [item] -> next_oid db' = S (next_oid db) ->
    store_step db req db'
| step_book id s e it t1 t2 :
    req = BookItem id s e ->
    Item_findById id db = Some it -> available it = true ->
    items db' = replace_item (booked it t1 t2) (items db) ->
    next_oid db' = next_oid db ->
    store_step db req db'
| step_return id it :
    req = ReturnItem id ->
    Item_findById id db = Some it ->
    items db' = replace_item (returned it) (items db) ->
    next_oid db' = next_oid db ->
    store_step db req db'.

(** ** The specification's vocabulary *)

(** The error kinds of the specification.  A handler reports one as a status
    and a message; [outcome_of] reads it back. *)
Inductive ErrorKind : Type :=
| ValidationError
| DuplicateError
| NotFoundError
| ConflictError
| AuthError
| InternalError.

Inductive Outcome : Type :=
| Success
| Failure (k : ErrorKind).

Definition kind_of_message (m : string) : option ErrorKind :=
  if m =? "Email and password required" then Some ValidationError
  else if m =? "Missing required fields" then Some ValidationError
  else if m =? "User already exists" then Some DuplicateError
  else if m =? "Invalid email or password" then Some AuthError
  else if m =? "Item already rented" then Some ConflictError
  else None.

Definition outcome_of (r : Response) : option Outcome :=
  match status r with
  | 200 | 201 => Some Success
  | 404 => Some (Failure NotFoundError)
  | 500 => Some (Failure InternalError)
  | 400 =>
      match json r with
      | JMsg m => option_map Failure (kind_of_message m)
      | _ => None
      end
  | _ => None
  end.

(** A date path is set when it holds a date, unset when it was never
    assigned or holds [null]. *)
Definition is_set (d : DateField) : Prop := exists t, d = DateVal t.

Definition is_unset (d : DateField) : Prop := d = Absent \/ d = Null.

(** The invariant of an item record. *)
Definition item_inv (it : Item) : Prop :=
  (available it = false -> is_set (rentedFrom it) /\ is_set (rentedTill it))
  /\ (available it = true -> is_unset (rentedFrom it) /\ is_unset (rentedTill it)).

(** The fields a booking or a return leaves alone. *)
Definition same_listing (a b : Item) : Prop :=
  _id a = _id b
  /\ title a = title b
  /\ description a = description b
  /\ pricePerDay a = pricePerDay b
  /\ category a = category b
  /\ imageUrl a = imageUrl b
  /\ ownerEmail a = ownerEmail b
  /\ createdAt a = createdAt b.

(** A required field is missing when it is absent or, for a string, empty. *)
Definition missing (v : option string) : Prop := v = None \/ v = Some "".

Definition missing_num (v : option number) : Prop := v = None.

(** [title] contains [q], ASCII letters compared without case. *)
Definition contains_ci (q title' : string) : Prop :=
  exists pre post,
    lower_string title' = (pre ++ lower_string q ++ post)%string.

(** The filter of [listItems] as the specification has it: typed fields,
    each optional. *)
Module Spec.

Record filter : Type := mkFilter {
  category : option string;
  minPrice : option number;
  maxPrice : option number;
  available : option bool;
  ownerEmail : option string
}.

End Spec.

(** An item satisfies a filter when it satisfies every field supplied:
    equal category, equal owner, equal availability, and a price within the
    bounds, the bounds included. *)
Definition satisfies (f : Spec.filter) (it : Item) : bool :=
  match Spec.category f with
  | Some c => category it =? c
  | None => true
  end
  && match Spec.minPrice f with
     | Some lo => num_leb lo (pricePerDay it)
     | None => true
     end
  && match Spec.maxPrice f with
     | Some hi => num_leb (pricePerDay it) hi
     | None => true
     end
  && match Spec.available f with
     | Some a => Bool.eqb (available it) a
     | None => true
     end
  && match Spec.ownerEmail f with
     | Some o => ownerEmail it =? o
     | None => true
     end.

(** The atoms of a query read letter by letter. *)
Definition lits (q : string) : list Regex.atom :=
  map Regex.Lit (list_ascii_of_string q).

(** An operation's result is a success or one failure of one kind, and a
    failure leaves the store as it was. *)
Definition atomic (db : Store) (out : Response * Store) : Prop :=
  (outcome_of (fst out) = Some Success
   \/ exists! k, outcome_of (fst out) = Some (Failure k))
  /\ (forall k, outcome_of (fst out) = Some (Failure k) -> snd out = db).

(** How a typed filter travels in the query string: a string as itself, a
    number as a numeral that [Number] reads back, a boolean as [true] or
    [false]. *)
Definition encodes_num (rt : Runtime) (s : option string) (n : option number)
  : Prop :=
  match s, n with
  | None, None => True
  | Some s, Some n => s <> "" /\ ToNumber rt s = Some n
  | _, _ => False
  end.

Definition encodes_bool (s : option string) (b : option bool) : Prop :=
  match s, b with
  | None, None => True
  | Some s, Some b => s = if b then "true" else "false"
  | _, _ => False
  end.

Definition encodes (rt : Runtime)
    (category' minPrice maxPrice available' ownerEmail' : option string)
    (f : Spec.filter) : Prop :=
  category' = Spec.category f
  /\ encodes_num rt minPrice (Spec.minPrice f)
  /\ encodes_num rt maxPrice (Spec.maxPrice f)
  /\ encodes_bool available' (Spec.available f)
  /\ ownerEmail' = Spec.ownerEmail f.

(** A query with no regular-expression operator in it. *)
Definition plain (q : string) : Prop :=
  forall c, In c (list_ascii_of_string q) -> Regex.is_meta c = false.

(** A stored item has a title, a category and an owner, none empty. *)
Definition valid_listing (it : Item) : Prop :=
  title it <> "" /\ category it <> "" /\ ownerEmail it <> "".

(** A stored user has an email and a password hash, neither empty. *)
Definition valid_user (u : User) : Prop :=
  email u <> "" /\ password u <> "".

(** ** A runtime to evaluate the handlers on concrete requests

    [Date.parse] on the date-only form [YYYY-MM-DD] (UTC midnight), [Number]
    on decimal numerals, a stand-in for bcrypt, and a regular-expression
    engine that refuses what the fragment above leaves out.  The theorems
    below hold for every runtime; this one only runs the examples. *)

Module Demo.

Definition digit (c : ascii) : option Z :=
  let n := Z.of_nat (nat_of_ascii c) in
  if ((48 <=? n) && (n <=? 57))%Z then Some (n - 48)%Z else None.

(** The value of a string of decimal digits, read after [acc]. *)
Fixpoint digits (acc : Z) (s : string) : option Z :=
  match s with
  | EmptyString => Some acc
  | String c s' =>
      match digit c with
      | Some d => digits (10 * acc + d)%Z s'
      | None => None
      end
  end.

Definition numeral (s : string) : option Z :=
  match s with
  | EmptyString => None
  | _ => digits 0%Z s
  end.

(** Days from 1970-01-01 to the given civil date. *)
Definition days_from_civil (y m d : Z) : Z :=
  (let y' := if m <=? 2 then y - 1 else y in
   let era := y' / 400 in
   let yoe := y' - era * 400 in
   let mp := if m <=? 2 then m + 9 else m - 3 in
   let doy := (153 * mp + 2) / 5 + d - 1 in
   let doe := yoe * 365 + yoe / 4 - yoe / 100 + doy in
   era * 146097 + doe - 719468)%Z.

Definition is_leap (y : Z) : bool :=
  ((y mod 4 =? 0) && (negb (y mod 100 =? 0) || (y mod 400 =? 0)))%Z.

Definition days_in_month (y m : Z) : Z :=
  (if m =? 2 then (if is_leap y then 29 else 28)
   else if (m =? 4) || (m =? 6) || (m =? 9) || (m =? 11) then 30
   else 31)%Z.

Definition date_only (s : string) : option Z :=
  if (String.length s =? 10)%nat
     && (substring 4 1 s =? "-") && (substring 7 1 s =? "-") then
    match numeral (substring 0 4 s), numeral (substring 5 2 s),
          numeral (substring 8 2 s) with
    | Some y, Some m, Some d =>
        if ((1 <=? m) && (m <=? 12) && (1 <=? d)
            && (d <=? days_in_month y m))%Z
        then Some (days_from_civil y m d * 86400000)%Z
        else None
    | _, _, _ => None
    end
  else None.

Definition number_of_numeral (s : string) : option number :=
  match numeral s with
  | Some z => Some (Fin (inject_Z z))
  | None => None
  end.

Definition hash (password' salt : string) : string :=
  (salt ++ "$" ++ password')%string.

Definition compare (password' hashed : string) : bool :=
  let n := String.length password' in
  let k := String.length hashed in
  (S n <=? k)%nat
  && (substring (k - S n) (S n) hashed =? ("$" ++ password')%string).

Definition hex_digit (c : ascii) : option N :=
  let n := N_of_ascii c in
  (if (48 <=? n) && (n <=? 57) then Some (n - 48)
   else if (97 <=? n) && (n <=? 102) then Some (n - 87)
   else if (65 <=? n) && (n <=? 70) then Some (n - 55)
   else None)%N.

Fixpoint hex (acc : N) (s : string) : option N :=
  match s with
  | EmptyString => Some acc
  | String c s' =>
      match hex_digit c with
      | Some d => hex (16 * acc + d)%N s'
      | None => None
      end
  end.

(** An ObjectId in a route: 24 hexadecimal digits. *)
Definition object_id (s : string) : option ObjectId :=
  if (String.length s =? 24)%nat then option_map N.to_nat (hex 0 s)
  else None.

Definition runtime : Runtime :=
  {| Date_parse := date_only;
     ToNumber := number_of_numeral;
     bcrypt_hash := hash;
     bcrypt_compare := compare;
     ObjectId_cast := object_id;
     findOne_other := fun _ _ => None;
     cast_string_other := fun _ => None;
     regex_other := fun _ => None;
     regex_unicode := fun _ _ => false |}.

(** One listing, and one registered user. *)
Definition ladder_store : Store :=
  snd (addItem 1700000000000 (Some "Ladder") None (Some (Fin 10%Q))
         (Some "tools") None (Some "a@x.com") empty_store).

Definition ladder : Item :=
  {| _id := 0%nat; title := "Ladder"; description := None;
     pricePerDay := Fin 10%Q; category := "tools"; imageUrl := None;
     available := true; ownerEmail := "a@x.com";
     rentedFrom := Absent; rentedTill := Absent;
     createdAt := 1700000000000 |}.

Definition booked_store : Store :=
  snd (bookItem runtime 0%nat (Some "2024-01-01") (Some "2024-01-05")
         ladder_store).

Definition alice : User :=
  {| email := "a@x.com"; password := hash "secret" "salt" |}.

Definition alice_store : Store :=
  snd (register runtime "salt" (Some "a@x.com") (Some "secret") empty_store).

Definition tools_10_available : Spec.filter :=
  {| Spec.category := Some "tools";
     Spec.minPrice := Some (Fin 10%Q);
     Spec.maxPrice := Some (Fin 10%Q);
     Spec.available := Some true;
     Spec.ownerEmail := None |}.

Definition empty_category : Spec.filter :=
  {| Spec.category := Some "";
     Spec.minPrice := None;
     Spec.maxPrice := None;
     Spec.available := None;
     Spec.ownerEmail := None |}.

(** The ladder store after alice registered. *)
Definition campus_store : Store :=
  snd (register runtime "salt" (Some "a@x.com") (Some "secret") ladder_store).

(** The ladder store with a second listing, and a sequence of requests. *)
Definition two_store : Store :=
  snd (addItem 1700000001000 (Some "Power Drill") (Some "cordless")
         (Some (Fin 15%Q)) (Some "tools") None (Some "b@x.com") ladder_store).

Definition add_ladder : Request :=
  AddItem 1700000000000 (Some "Ladder") None (Some (Fin 10%Q)) (Some "tools")
    None (Some "a@x.com").

Definition busy_day : list Request :=
  [ Register "pepper" (Some "a@x.com") (Some "hijack");
    BookItem 0%nat (Some "2024-01-01") (Some "2024-01-05");
    ReturnItem 0%nat;
    AddItem 1700000001000 (Some "Power Drill") (Some "cordless")
      (Some (Fin 15%Q)) (Some "tools") None (Some "b@x.com");
    BookItem 0%nat (Some "2024-03-01") (Some "2024-03-02") ].

(** The ladder's identifier as a route parameter, and one no item has. *)
Definition ladder_id : string := "000000000000000000000000".

Definition other_id : string := "000000000000000000000007".

End Demo.

(** ** Sanity checks on concrete requests *)

Example date_only_new_year :
  Demo.date_only "2024-01-01" = Some 1704067200000%Z.
Proof. reflexivity. Qed.

Example ladder_store_items :
  Demo.ladder_store =
  {| users := []; items := [Demo.ladder]; next_oid := 1%nat |}.
Proof. reflexivity. Qed.

Example demo_compare_hash :
  Demo.compare "secret" (Demo.hash "secret" "salt") = true
  /\ Demo.compare "wrong" (Demo.hash "secret" "salt") = false.
Proof. split; reflexivity. Qed.

(** The example flow of the specification: add, book, book again, return. *)
Example ladder_flow :
  let db1 := Demo.ladder_store in
  let '(r2, db2) :=
    bookItem Demo.runtime 0%nat (Some "2024-01-01") (Some "2024-01-05") db1 in
  let '(r3, db3) :=
    bookItem Demo.runtime 0%nat (Some "2024-02-01") (Some "2024-02-05") db2 in
  let '(r4, db4) := returnItem 0%nat db3 in
  outcome_of r2 = Some Success
  /\ option_map available (Item_findById 0%nat db2) = Some false
  /\ outcome_of r3 = Some (Failure ConflictError)
  /\ outcome_of r4 = Some Success
  /\ Item_findById 0%nat db4
     = Some (with_rentedTill Null (with_rentedFrom Null Demo.ladder)).
Proof. vm_compute. repeat split; reflexivity. Qed.

(** ** Lookups and writes on the Item collection *)

Lemma find_by_id_some (id : ObjectId) (l : list Item) (it : Item) :
  find (fun x => (_id x =? id)%nat) l = Some it -> _id it = id /\ In it l.
Proof.
  intros H. apply find_some in H. destruct H as [Hin Heq].
  split; [now apply Nat.eqb_eq | exact Hin].
Qed.

Lemma find_replace_same (it' : Item) (l : list Item) (it : Item) :
  find (fun x => (_id x =? _id it')%nat) l = Some it ->
  find (fun x => (_id x =? _id it')%nat) (replace_item it' l) = Some it'.
Proof.
  induction l as [|x r IH]; simpl; [discriminate|].
  destruct (_id x =? _id it')%nat eqn:E; simpl.
  - now rewrite Nat.eqb_refl.
  - rewrite E. exact IH.
Qed.

Lemma find_replace_other (it' : Item) (l : list Item) (id : ObjectId) :
  id <> _id it' ->
  find (fun x => (_id x =? id)%nat) (replace_item it' l)
  = find (fun x => (_id x =? id)%nat) l.
Proof.
  intros Hne. induction l as [|x r IH]; simpl; [reflexivity|].
  destruct (_id x =? _id it')%nat eqn:E; simpl.
  - apply Nat.eqb_eq in E.
    assert (Hx : (_id x =? id)%nat = false)
      by (apply Nat.eqb_neq; congruence).
    assert (Hy : (_id it' =? id)%nat = false)
      by (apply Nat.eqb_neq; congruence).
    now rewrite Hx, Hy.
  - destruct (_id x =? id)%nat; [reflexivity | exact IH].
Qed.

Lemma in_replace_item (it' : Item) (l : list Item) (x : Item) :
  In x (replace_item it' l) -> x = it' \/ In x l.
Proof.
  induction l as [|y r IH]; simpl; [tauto|].
  destruct (_id y =? _id it')%nat; simpl; intros [H|H]; auto.
  destruct (IH H); auto.
Qed.

(** ** The operator-free fragment searches for a substring *)

Lemma is_meta_dot : Regex.is_meta "." = true.
Proof. reflexivity. Qed.

Lemma parse_plain (q : string) :
  plain q -> Regex.parse q = Some (lits q).
Proof.
  unfold plain, lits. induction q as [|c q IH]; simpl; [reflexivity|].
  intros H. rewrite IH by (intros c' Hc'; apply H; now right).
  assert (Hc : Regex.is_meta c = false) by (apply H; now left).
  destruct (Ascii.eqb_spec c ".") as [->|_].
  - rewrite is_meta_dot in Hc. discriminate.
  - now rewrite Hc.
Qed.

Lemma match_here_lits (q s : string) :
  Regex.match_here (lits q) s = true
  <-> exists post, lower_string s = (lower_string q ++ post)%string.
Proof.
  unfold lits. revert s. induction q as [|a q IH]; intros s; simpl.
  - split; [|reflexivity]. intros _. now exists (lower_string s).
  - destruct s as [|c s]; simpl.
    + split; [discriminate|]. intros [post H]. discriminate.
    + rewrite andb_true_iff, IH. split.
      * intros [Hc [post Hp]]. apply Ascii.eqb_eq in Hc.
        exists post. now rewrite Hc, Hp.
      * intros [post Hp]. injection Hp as Hc Hp.
        split; [apply Ascii.eqb_eq; congruence | now exists post].
Qed.

Lemma search_lits (q s : string) :
  Regex.search (lits q) s = true <-> contains_ci q s.
Proof.
  unfold contains_ci. induction s as [|c s IH].
  - simpl. rewrite orb_false_r, match_here_lits. split.
    + intros [post H]. now exists EmptyString, post.
    + intros [pre [post H]]. simpl in H.
      destruct pre; [now exists post | discriminate].
  - change (Regex.search (lits q) (String c s))
      with (Regex.match_here (lits q) (String c s) || Regex.search (lits q) s).
    rewrite orb_true_iff, match_here_lits, IH. split.
    + intros [[post H] | [pre [post H]]].
      * now exists EmptyString, post.
      * exists (String (Regex.lower c) pre), post. simpl. now rewrite H.
    + intros [pre [post H]]. destruct pre as [|a pre].
      * left. now exists post.
      * right. simpl in H. injection H as _ H. now exists pre, post.
Qed.

Lemma is_ascii_lower (c : ascii) :
  Regex.is_ascii (Regex.lower c) = Regex.is_ascii c.
Proof. destruct c as [[] [] [] [] [] [] [] []]; reflexivity. Qed.

Lemma ascii_lower_string (s : string) :
  Regex.ascii_string (lower_string s) = Regex.ascii_string s.
Proof.
  induction s as [|c s IH]; simpl; [reflexivity|].
  now rewrite is_ascii_lower, IH.
Qed.

Lemma lower_string_empty (q q' : string) :
  lower_string q = lower_string q' -> (q =? "") = (q' =? "").
Proof. destruct q, q'; simpl; intros H; try discriminate; reflexivity. Qed.


Lemma filter_all (A : Type) (f : A -> bool) (l : list A) :
  (forall x, f x = true) -> filter f l = l.
Proof.
  intros H. induction l as [|a l IH]; simpl; [reflexivity|].
  now rewrite H, IH.
Qed.

Section Properties.

Variable rt : Runtime.

(** *** The two handlers that write an item, in closed form *)

Lemma bookItem_eq (id : ObjectId) (s e : option string) (db : Store) :
  bookItem rt id s e db =
  match Item_findById id db with
  | None => ({| status := 404; json := JMsg "Item not found" |}, db)
  | Some it =>
      if available it then
        match Date_new rt s, Date_new rt e with
        | ValidDate t1, ValidDate t2 =>
            (res_json (JMsg "Item booked successfully"),
             write_item (booked it t1 t2) db)
        | _, _ => (server_error, db)
        end
      else ({| status := 400; json := JMsg "Item already rented" |}, db)
  end.
Proof.
  unfold bookItem. destruct (Item_findById id db) as [it|]; [|reflexivity].
  destruct (available it); simpl; [|reflexivity].
  destruct (Date_new rt s), (Date_new rt e); reflexivity.
Qed.

Lemma returnItem_eq (id : ObjectId) (db : Store) :
  returnItem id db =
  match Item_findById id db with
  | None => ({| status := 404; json := JMsg "Item not found" |}, db)
  | Some it =>
      (res_json (JMsg "Item returned successfully"),
       write_item (returned it) db)
  end.
Proof.
  unfold returnItem. now destruct (Item_findById id db).
Qed.

Lemma findById_write_same (id : ObjectId) (it it' : Item) (db : Store) :
  Item_findById id db = Some it -> _id it' = _id it ->
  Item_findById id (write_item it' db) = Some it'.
Proof.
  unfold Item_findById, write_item. simpl. intros Hf Hid.
  destruct (find_by_id_some _ _ _ Hf) as [Heq _].
  assert (E : id = _id it') by congruence.
  rewrite E in *. eapply find_replace_same; eassumption.
Qed.

Lemma findById_write_other (id : ObjectId) (it' : Item) (db : Store) :
  id <> _id it' ->
  Item_findById id (write_item it' db) = Item_findById id db.
Proof.
  unfold Item_findById, write_item. simpl. apply find_replace_other.
Qed.

Lemma booked_fields (it : Item) (t1 t2 : Z) :
  available (booked it t1 t2) = false
  /\ rentedFrom (booked it t1 t2) = DateVal t1
  /\ rentedTill (booked it t1 t2) = DateVal t2
  /\ same_listing it (booked it t1 t2).
Proof. unfold same_listing. repeat split. Qed.

Lemma returned_fields (it : Item) :
  available (returned it) = true
  /\ rentedFrom (returned it) = Null
  /\ rentedTill (returned it) = Null
  /\ same_listing it (returned it).
Proof. unfold same_listing. repeat split. Qed.

(** *** Booking: the dates *)

(** C5, amended: [bookItem] performs no validation of the order of its date
    arguments: for every available item and every pair of strings that both
    parse as dates the call succeeds, also when the start date is not
    earlier than the end date, and stores the parsed dates; when one of the
    strings does not parse as a date the call fails with InternalError and
    nothing is stored. *)
Theorem bookItem_dates (id : ObjectId) (s e : string) (db : Store)
    (it : Item) :
  Item_findById id db = Some it -> available it = true ->
  (forall t1 t2,
     Date_parse rt s = Some t1 -> Date_parse rt e = Some t2 ->
     outcome_of (fst (bookItem rt id (Some s) (Some e) db)) = Some Success
     /\ exists it',
          Item_findById id (snd (bookItem rt id (Some s) (Some e) db))
          = Some it'
          /\ rentedFrom it' = DateVal t1 /\ rentedTill it' = DateVal t2)
  /\ (Date_parse rt s = None \/ Date_parse rt e = None ->
      outcome_of (fst (bookItem rt id (Some s) (Some e) db))
      = Some (Failure InternalError)
      /\ snd (bookItem rt id (Some s) (Some e) db) = db).
Proof.
  intros Hf Ha. rewrite bookItem_eq, Hf, Ha. unfold Date_new. split.
  - intros t1 t2 -> ->. simpl. split; [reflexivity|].
    exists (booked it t1 t2). split; [|split; reflexivity].
    eapply findById_write_same; [eassumption | reflexivity].
  - intros [-> | ->]; [|destruct (Date_parse rt s)]; split; reflexivity.
Qed.

(** *** What a booking and a return leave alone *)

(** C10: a successful [bookItem] or [returnItem] on an item leaves its
    title, description, pricePerDay, category, imageUrl, ownerEmail and
    createdAt (and its identifier) as they were. *)
Theorem book_return_frame (id : ObjectId) (s e : option string)
    (db : Store) (it : Item) :
  Item_findById id db = Some it ->
  (outcome_of (fst (bookItem rt id s e db)) = Some Success ->
   exists it',
     Item_findById id (snd (bookItem rt id s e db)) = Some it'
     /\ same_listing it it')
  /\ (outcome_of (fst (returnItem id db)) = Some Success ->
      exists it',
        Item_findById id (snd (returnItem id db)) = Some it'
        /\ same_listing it it').
Proof.
  intros Hf. rewrite bookItem_eq, returnItem_eq, Hf. split.
  - destruct (available it); [|discriminate].
    destruct (Date_new rt s) as [|t1]; [discriminate|].
    destruct (Date_new rt e) as [|t2]; [discriminate|].
    intros _. exists (booked it t1 t2). split.
    + eapply findById_write_same; [eassumption | reflexivity].
    + apply booked_fields.
  - intros _. exists (returned it). split.
    + eapply findById_write_same; [eassumption | reflexivity].
    + apply returned_fields.
Qed.

(** *** Adding an item *)

Lemma truthy_some (v : option string) :
  truthy v = true -> exists s, v = Some s /\ (s =? "") = false.
Proof.
  destruct v as [s|]; simpl; [|discriminate].
  intros H. exists s. split; [reflexivity|].
  now destruct (s =? "").
Qed.

Lemma truthy_missing (v : option string) : truthy v = false <-> missing v.
Proof.
  unfold missing. destruct v as [s|]; simpl.
  - destruct (String.eqb_spec s ""); simpl; split; intros H;
      try discriminate; auto.
    + subst. auto.
    + destruct H as [H|H]; [discriminate | congruence].
  - split; auto.
Qed.

(** The handler in closed form: its presence check lets through exactly
    the requests the schema's validators accept, save a price of zero. *)
Lemma addItem_eq (now : Z) (t d : option string) (p : option number)
    (c i o : option string) (db : Store) :
  addItem now t d p c i o db =
  match t, p, c, o with
  | Some t', Some p', Some c', Some o' =>
      if (t' =? "") || is_zero p' || (c' =? "") || (o' =? "") then
        ({| status := 400; json := JMsg "Missing required fields" |}, db)
      else
        ({| status := 201;
            json := JMsgItemId "Item added successfully" (next_oid db) |},
         Item_insert
           {| _id := next_oid db; title := t'; description := d;
              pricePerDay := p'; category := c'; imageUrl := i;
              available := true; ownerEmail := o';
              rentedFrom := Absent; rentedTill := Absent;
              createdAt := now |} db)
  | _, _, _, _ =>
      ({| status := 400; json := JMsg "Missing required fields" |}, db)
  end.
Proof.
  unfold addItem, Item_new, truthy, truthy_num.
  destruct t as [t'|]; [|reflexivity].
  destruct p as [p'|]; [|now destruct (t' =? "")].
  destruct c as [c'|];
    [|now destruct (t' =? ""), (is_zero p')].
  destruct o as [o'|];
    [|now destruct (t' =? ""), (is_zero p'), (c' =? "")].
  destruct (t' =? ""), (is_zero p'), (c' =? ""), (o' =? ""); reflexivity.
Qed.

(** *** One request at a time *)

Lemma handle_step (req : Request) (db : Store) :
  store_step db req (snd (handle rt req db)).
Proof.
  destruct req as [salt e p | e p | now t d p c i o | c lo hi a o | q
                  | id s e | id]; simpl.
  - unfold register.
    destruct (negb (truthy e) || negb (truthy p)); [now apply step_same|].
    destruct (User_findOne _ db); [now apply step_same|].
    unfold User_save. simpl.
    destruct (_ || _); [now apply step_same|].
    destruct (User_findOne _ db); now apply step_same.
  - unfold login.
    destruct (negb (truthy e) || negb (truthy p)); [now apply step_same|].
    destruct (User_findOne _ db); [|now apply step_same].
    destruct (negb _); now apply step_same.
  - rewrite addItem_eq.
    destruct t as [t'|]; [|now apply step_same].
    destruct p as [p'|]; [|now apply step_same].
    destruct c as [c'|]; [|now apply step_same].
    destruct o as [o'|]; [|now apply step_same].
    destruct (_ || _); [now apply step_same|].
    apply (step_add _ _ _ now (Some t') d (Some p') (Some c') i (Some o')
             {| _id := next_oid db; title := t'; description := d;
                pricePerDay := p'; category := c'; imageUrl := i;
                available := true; ownerEmail := o';
                rentedFrom := Absent; rentedTill := Absent;
                createdAt := now |});
      reflexivity.
  - unfold listItems. destruct (Item_find _ db); now apply step_same.
  - unfold searchItems.
    destruct (Item_find_regex rt q db); now apply step_same.
  - rewrite bookItem_eq.
    destruct (Item_findById id db) as [it|] eqn:Hf; [|now apply step_same].
    destruct (available it) eqn:Ha; [|now apply step_same].
    destruct (Date_new rt s) as [|t1]; [now apply step_same|].
    destruct (Date_new rt e) as [|t2]; [now apply step_same|].
    eapply step_book; try reflexivity; eassumption.
  - rewrite returnItem_eq.
    destruct (Item_findById id db) as [it|] eqn:Hf; [|now apply step_same].
    eapply step_return; try reflexivity; eassumption.
Qed.

Lemma find_app_some (A : Type) (f : A -> bool) (l r : list A) (x : A) :
  find f l = Some x -> find f (l ++ r) = Some x.
Proof.
  induction l as [|a l IH]; simpl; [discriminate|].
  destruct (f a); auto.
Qed.

Lemma find_app_none (A : Type) (f : A -> bool) (l r : list A) :
  find f l = None -> find f (l ++ r) = find f r.
Proof.
  induction l as [|a l IH]; simpl; [reflexivity|].
  destruct (f a); [discriminate | exact IH].
Qed.

(** An item that was there before a request and changed its availability:
    the request booked it, or returned it. *)
Lemma availability_changes (req : Request) (db : Store) (id : ObjectId)
    (it it' : Item) :
  Item_findById id db = Some it ->
  Item_findById id (snd (handle rt req db)) = Some it' ->
  available it <> available it' ->
  (available it = true /\ exists s e, req = BookItem id s e)
  \/ (available it = false /\ req = ReturnItem id).
Proof.
  intros Hf Hf' Hne. unfold Item_findById in Hf'.
  destruct (handle_step req db)
    as [E _ | now t d p c i o item _ _ _ _ _ E _
        | id0 s e it0 t1 t2 Hreq Hf0 Ha0 E _ | id0 it0 Hreq Hf0 E _];
    rewrite E in Hf'.
  - unfold Item_findById in Hf. congruence.
  - erewrite find_app_some in Hf' by exact Hf. congruence.
  - destruct (find_by_id_some _ _ _ Hf0) as [Hid0 _].
    destruct (Nat.eq_dec id id0) as [->|Hd].
    + left. assert (it0 = it) by congruence. subst it0.
      split; [exact Ha0 | now exists s, e].
    + rewrite find_replace_other in Hf' by (simpl; congruence).
      unfold Item_findById in Hf. congruence.
  - destruct (find_by_id_some _ _ _ Hf0) as [Hid0 _].
    destruct (Nat.eq_dec id id0) as [->|Hd].
    + assert (it0 = it) by congruence. subst it0.
      pose proof (findById_write_same id0 it (returned it) db Hf eq_refl)
        as Hw.
      unfold Item_findById, write_item in Hw. simpl in Hw.
      rewrite Hw in Hf'. injection Hf' as <-. simpl in Hne.
      right. split; [|exact Hreq].
      destruct (available it); congruence.
    + rewrite find_replace_other in Hf' by (simpl; congruence).
      unfold Item_findById in Hf. congruence.
Qed.

(** An item that appears with a request was added by it, available and
    with no dates. *)
Lemma item_appears (req : Request) (db : Store) (id : ObjectId)
    (it' : Item) :
  Item_findById id db = None ->
  Item_findById id (snd (handle rt req db)) = Some it' ->
  (exists now t d p c i o, req = AddItem now t d p c i o)
  /\ available it' = true
  /\ rentedFrom it' = Absent /\ rentedTill it' = Absent.
Proof.
  intros Hf Hf'. unfold Item_findById in Hf, Hf'.
  destruct (handle_step req db)
    as [E _ | now t d p c i o item Hreq Ha Hfrom Htill _ E _
        | id0 s e it0 t1 t2 Hreq Hf0 Ha0 E _ | id0 it0 Hreq Hf0 E _];
    rewrite E in Hf'.
  - congruence.
  - rewrite find_app_none in Hf' by exact Hf. simpl in Hf'.
    destruct (_id item =? id)%nat; [|discriminate].
    injection Hf' as <-. split; [|auto].
    now exists now, t, d, p, c, i, o.
  - destruct (find_by_id_some _ _ _ Hf0) as [Hid0 _].
    destruct (Nat.eq_dec id id0) as [->|Hd].
    + unfold Item_findById in Hf0. congruence.
    + rewrite find_replace_other in Hf' by (simpl; congruence). congruence.
  - destruct (find_by_id_some _ _ _ Hf0) as [Hid0 _].
    destruct (Nat.eq_dec id id0) as [->|Hd].
    + unfold Item_findById in Hf0. congruence.
    + rewrite find_replace_other in Hf' by (simpl; congruence). congruence.
Qed.

Lemma step_preserves_inv (req : Request) (db : Store) :
  (forall it, In it (items db) -> item_inv it) ->
  forall it, In it (items (snd (handle rt req db))) -> item_inv it.
Proof.
  intros Hinv it Hin.
  assert (Hfresh : forall x, available x = true -> rentedFrom x = Absent ->
                             rentedTill x = Absent -> item_inv x).
  { intros x Ha Hfrom Htill. unfold item_inv, is_unset.
    rewrite Ha, Hfrom, Htill. split; [discriminate | auto]. }
  destruct (handle_step req db)
    as [E _ | now t d p c i o item _ Ha Hfrom Htill _ E _
        | id0 s e it0 t1 t2 _ _ _ E _ | id0 it0 _ _ E _];
    rewrite E in Hin.
  - auto.
  - apply in_app_or in Hin. destruct Hin as [Hin | [<- | []]]; auto.
  - apply in_replace_item in Hin. destruct Hin as [-> | Hin]; auto.
    unfold item_inv, is_set. simpl. split; [eauto | discriminate].
  - apply in_replace_item in Hin. destruct Hin as [-> | Hin]; auto.
    unfold item_inv, is_unset. simpl. split; [discriminate | auto].
Qed.

Lemma map_id_replace (it' : Item) (l : list Item) :
  map _id (replace_item it' l) = map _id l.
Proof.
  induction l as [|x r IH]; simpl; [reflexivity|].
  destruct (_id x =? _id it')%nat eqn:E; simpl.
  - apply Nat.eqb_eq in E. now rewrite E.
  - now rewrite IH.
Qed.

(** The stores the server reaches keep their identifiers apart, so
    [findById] finds the one item that has the identifier. *)
Lemma reachable_ids_fresh (db : Store) : reachable rt db -> ids_fresh db.
Proof.
  intros Hr. induction Hr as [|req db Hr [Hlt Hnd]].
  - split; [intros it [] | constructor].
  - unfold ids_fresh.
    destruct (handle_step req db)
      as [E En | now t d p c i o item _ _ _ _ Hid E En
          | id0 s e it0 t1 t2 _ Hf0 _ E En | id0 it0 _ Hf0 E En];
      rewrite E, En.
    + now split.
    + split.
      * intros it Hin. apply in_app_or in Hin.
        destruct Hin as [Hin | [<- | []]]; [|lia].
        apply Hlt in Hin. lia.
      * rewrite map_app. simpl.
        apply NoDup_app; [exact Hnd | repeat constructor; intros [] |].
        intros x Hx [<- | []]. apply in_map_iff in Hx.
        destruct Hx as [it [Hit Hin]]. apply Hlt in Hin. lia.
    + destruct (find_by_id_some _ _ _ Hf0) as [Hid0 Hin0].
      split; [|now rewrite map_id_replace].
      intros it Hin. apply in_replace_item in Hin.
      destruct Hin as [-> | Hin]; [|auto].
      simpl. now apply Hlt.
    + destruct (find_by_id_some _ _ _ Hf0) as [Hid0 Hin0].
      split; [|now rewrite map_id_replace].
      intros it Hin. apply in_replace_item in Hin.
      destruct Hin as [-> | Hin]; [|auto].
      simpl. now apply Hlt.
Qed.

(** After a successful [addItem] the identifier it returns finds the record
    it stored. *)
Lemma addItem_findable (now : Z) (t d : option string) (p : option number)
    (c i o : option string) (db : Store) (id : ObjectId) (m : string) :
  reachable rt db ->
  fst (addItem now t d p c i o db) = {| status := 201; json := JMsgItemId m id |} ->
  exists item,
    Item_findById id (snd (addItem now t d p c i o db)) = Some item
    /\ items (snd (addItem now t d p c i o db)) = items db ++ [item]
    /\ available item = true.
Proof.
  intros Hr. destruct (reachable_ids_fresh db Hr) as [Hlt _].
  rewrite addItem_eq.
  destruct t as [t'|]; [|discriminate]. destruct p as [p'|]; [|discriminate].
  destruct c as [c'|]; [|discriminate]. destruct o as [o'|]; [|discriminate].
  destruct (_ || _); [discriminate|]. simpl. intros H. injection H as _ <-.
  eexists. split; [|split; reflexivity].
  unfold Item_findById, Item_insert. simpl.
  rewrite find_app_none.
  - simpl. now rewrite Nat.eqb_refl.
  - destruct (find _ (items db)) as [x|] eqn:Hx; [|reflexivity].
    destruct (find_by_id_some _ _ _ Hx) as [Hid Hin].
    apply Hlt in Hin. lia.
Qed.

(** C2: every item of a store the server can reach satisfies the
    invariant (not available: both dates set; available: both unset).
    An item appears available, by [addItem]; it goes from available to
    rented only by a [bookItem] on it, which a rented item refuses; it
    goes from rented to available only by a [returnItem] on it, which
    always makes it available. *)
Theorem availability_lifecycle :
  (forall db, reachable rt db ->
     forall it, In it (items db) -> item_inv it)
  /\ (forall req db id it',
        Item_findById id db = None ->
        Item_findById id (snd (handle rt req db)) = Some it' ->
        available it' = true
        /\ exists now t d p c i o, req = AddItem now t d p c i o)
  /\ (forall req db id it it',
        Item_findById id db = Some it ->
        Item_findById id (snd (handle rt req db)) = Some it' ->
        available it = true -> available it' = false ->
        exists s e, req = BookItem id s e)
  /\ (forall id s e db it,
        Item_findById id db = Some it -> available it = false ->
        snd (bookItem rt id s e db) = db)
  /\ (forall req db id it it',
        Item_findById id db = Some it ->
        Item_findById id (snd (handle rt req db)) = Some it' ->
        available it = false -> available it' = true ->
        req = ReturnItem id)
  /\ (forall id db it,
        Item_findById id db = Some it ->
        option_map available (Item_findById id (snd (returnItem id db)))
        = Some true).
Proof.
  repeat apply conj.
  - intros db Hr. induction Hr as [|req db Hr IH].
    + intros it [].
    + now apply step_preserves_inv.
  - intros req db id it' Hf Hf'.
    destruct (item_appears req db id it' Hf Hf') as (Hreq & Ha & _).
    auto.
  - intros req db id it it' Hf Hf' Ha Ha'.
    destruct (availability_changes req db id it it' Hf Hf')
      as [[_ H] | [H _]]; congruence.
  - intros id s e db it Hf Ha. now rewrite bookItem_eq, Hf, Ha.
  - intros req db id it it' Hf Hf' Ha Ha'.
    destruct (availability_changes req db id it it' Hf Hf')
      as [[H _] | [_ H]]; congruence.
  - intros id db it Hf. rewrite returnItem_eq, Hf. simpl.
    erewrite findById_write_same; [reflexivity | eassumption | reflexivity].
Qed.

(** *** Failures write nothing *)

Lemma atomic_ok (db db' : Store) (r : Response) :
  outcome_of r = Some Success -> atomic db (r, db').
Proof.
  intros H. split; simpl; [now left|]. intros k Hk. congruence.
Qed.

Lemma atomic_fail (db : Store) (r : Response) (k : ErrorKind) :
  outcome_of r = Some (Failure k) -> atomic db (r, db).
Proof.
  intros H. split; simpl; [|reflexivity].
  right. exists k. split; [exact H|]. intros k' Hk'. congruence.
Qed.

Lemma register_atomic (salt : string) (e p : option string) (db : Store) :
  atomic db (register rt salt e p db).
Proof.
  unfold register.
  destruct (negb (truthy e) || negb (truthy p)).
  2: destruct (User_findOne _ db) eqn:Hu.
  3: unfold User_save; simpl; destruct (_ || _); [|rewrite Hu].
  all: first [ apply atomic_ok; reflexivity
             | eapply atomic_fail; reflexivity ].
Qed.

Lemma login_atomic (e p : option string) (db : Store) :
  atomic db (login rt e p db).
Proof.
  unfold login.
  destruct (negb (truthy e) || negb (truthy p)).
  2: destruct (User_findOne _ db); [destruct (negb _)|].
  all: first [ apply atomic_ok; reflexivity
             | eapply atomic_fail; reflexivity ].
Qed.

Lemma addItem_atomic (now : Z) (t d : option string) (p : option number)
    (c i o : option string) (db : Store) :
  atomic db (addItem now t d p c i o db).
Proof.
  rewrite addItem_eq.
  destruct t, p, c, o; try destruct (_ || _).
  all: first [ apply atomic_ok; reflexivity
             | eapply atomic_fail; reflexivity ].
Qed.

Lemma listItems_atomic (c lo hi a o : option string) (db : Store) :
  atomic db (listItems rt c lo hi a o db).
Proof.
  unfold listItems. destruct (Item_find _ db).
  all: first [ apply atomic_ok; reflexivity
             | eapply atomic_fail; reflexivity ].
Qed.

Lemma searchItems_atomic (q : option string) (db : Store) :
  atomic db (searchItems rt q db).
Proof.
  unfold searchItems. destruct (Item_find_regex rt q db).
  all: first [ apply atomic_ok; reflexivity
             | eapply atomic_fail; reflexivity ].
Qed.

Lemma bookItem_atomic (id : ObjectId) (s e : option string) (db : Store) :
  atomic db (bookItem rt id s e db).
Proof.
  rewrite bookItem_eq.
  destruct (Item_findById id db) as [it|];
    [destruct (available it);
     [destruct (Date_new rt s); [|destruct (Date_new rt e)]|]|].
  all: first [ apply atomic_ok; reflexivity
             | eapply atomic_fail; reflexivity ].
Qed.

Lemma returnItem_atomic (id : ObjectId) (db : Store) :
  atomic db (returnItem id db).
Proof.
  rewrite returnItem_eq. destruct (Item_findById id db).
  all: first [ apply atomic_ok; reflexivity
             | eapply atomic_fail; reflexivity ].
Qed.

(** C9: every operation (register, verify, addItem, listItems,
    searchItems, bookItem, returnItem) ends in a success or in exactly one
    failure of one kind, and when it fails the store is as it was. *)
Theorem operations_atomic (req : Request) (db : Store) :
  (outcome_of (fst (handle rt req db)) = Some Success
   \/ exists! k, outcome_of (fst (handle rt req db)) = Some (Failure k))
  /\ (forall k,
        outcome_of (fst (handle rt req db)) = Some (Failure k) ->
        snd (handle rt req db) = db).
Proof.
  change (atomic db (handle rt req db)).
  destruct req; simpl.
  - apply register_atomic.
  - apply login_atomic.
  - apply addItem_atomic.
  - apply listItems_atomic.
  - apply searchItems_atomic.
  - apply bookItem_atomic.
  - apply returnItem_atomic.
Qed.

(** *** Adding an item: what is refused and what is stored *)

(** The presence check refuses a request exactly when a required string
    is missing or the price is absent or zero. *)
Lemma addItem_refused (now : Z) (t d : option string) (p : option number)
    (c i o : option string) (db : Store) :
  outcome_of (fst (addItem now t d p c i o db))
  = Some (Failure ValidationError)
  <-> missing t \/ truthy_num p = false \/ missing c \/ missing o.
Proof.
  rewrite <- !truthy_missing, addItem_eq.
  destruct t as [t'|]; simpl; [|tauto].
  destruct p as [p'|]; simpl; [|tauto].
  destruct c as [c'|]; simpl; [|tauto].
  destruct o as [o'|]; simpl; [|tauto].
  destruct (t' =? ""), (is_zero p'), (c' =? ""), (o' =? ""); simpl;
    intuition discriminate.
Qed.

(** A request that passes the check is stored: one new record, available,
    with no rental dates, created at [now], and its identifier returned. *)
Lemma addItem_stored (now : Z) (t d : option string) (p : option number)
    (c i o : option string) (db : Store) :
  outcome_of (fst (addItem now t d p c i o db)) = Some Success ->
  exists item,
    addItem now t d p c i o db
    = ({| status := 201;
          json := JMsgItemId "Item added successfully" (_id item) |},
       {| users := users db; items := items db ++ [item];
          next_oid := S (next_oid db) |})
    /\ available item = true
    /\ rentedFrom item = Absent /\ rentedTill item = Absent
    /\ createdAt item = now
    /\ Some (title item) = t /\ description item = d
    /\ Some (pricePerDay item) = p /\ Some (category item) = c
    /\ imageUrl item = i /\ Some (ownerEmail item) = o.
Proof.
  rewrite addItem_eq.
  destruct t as [t'|]; [|discriminate].
  destruct p as [p'|]; [|discriminate].
  destruct c as [c'|]; [|discriminate].
  destruct o as [o'|]; [|discriminate].
  destruct (_ || _); [discriminate|]. intros _.
  exists {| _id := next_oid db; title := t'; description := d;
            pricePerDay := p'; category := c'; imageUrl := i;
            available := true; ownerEmail := o';
            rentedFrom := Absent; rentedTill := Absent;
            createdAt := now |}.
  repeat split.
Qed.

(** C4, at the input where the handler departs from it: a request with
    every required field supplied and a price of 0 is refused as if a field
    were missing, and nothing is stored. *)
Theorem addItem_zero_price (now : Z) (d i : option string) (db : Store) :
  let out :=
    addItem now (Some "Ladder") d (Some (Fin 0%Q)) (Some "tools") i
      (Some "a@x.com") db in
  fst out = {| status := 400; json := JMsg "Missing required fields" |}
  /\ outcome_of (fst out) = Some (Failure ValidationError)
  /\ snd out = db
  /\ ~ missing (Some "Ladder") /\ ~ missing_num (Some (Fin 0%Q))
  /\ ~ missing (Some "tools") /\ ~ missing (Some "a@x.com").
Proof.
  simpl. unfold missing, missing_num.
  repeat split; try reflexivity; intros H;
    try destruct H as [H|H]; discriminate.
Qed.

(** *** Listing with a filter *)

Lemma build_filter_casts (c lo hi a o : option string) (f : Spec.filter) :
  encodes rt c lo hi a o f ->
  filter_casts (build_filter rt c lo hi a o) = true.
Proof.
  intros (_ & Hlo & Hhi & _ & _). unfold filter_casts, build_filter. simpl.
  destruct (truthy lo || truthy hi); [|reflexivity]. simpl.
  destruct lo as [slo|], (Spec.minPrice f) as [nlo|]; simpl in Hlo;
    try contradiction;
    destruct hi as [shi|], (Spec.maxPrice f) as [nhi|]; simpl in Hhi;
    try contradiction;
    repeat match goal with
           | H : _ /\ _ |- _ => destruct H as [_ H]; rewrite H
           end;
    repeat match goal with
           | |- context [if ?b then _ else _] => destruct b
           end;
    reflexivity.
Qed.

Lemma build_filter_price (c lo hi a o : option string)
    (nlo nhi : option number) (p : number) :
  encodes_num rt lo nlo -> encodes_num rt hi nhi ->
  match Query.pricePerDay (build_filter rt c lo hi a o) with
  | Some r => lower_ok (Query.gte r) p && upper_ok (Query.lte r) p
  | None => true
  end
  = match nlo with Some n => num_leb n p | None => true end
    && match nhi with Some n => num_leb p n | None => true end.
Proof.
  intros Hlo Hhi. unfold build_filter. simpl.
  destruct lo as [slo|], nlo as [n1|]; simpl in Hlo; try contradiction;
    destruct hi as [shi|], nhi as [n2|]; simpl in Hhi; try contradiction;
    repeat match goal with
           | H : ?s <> "" /\ _ |- _ =>
               let Hne := fresh in
               destruct H as [Hne H]; apply String.eqb_neq in Hne;
               simpl; rewrite Hne, ?H
           end;
    simpl; rewrite ?andb_true_r; reflexivity.
Qed.

Lemma build_filter_matches (c lo hi a o : option string) (f : Spec.filter)
    (it : Item) :
  encodes rt c lo hi a o f ->
  Spec.category f <> Some "" -> Spec.ownerEmail f <> Some "" ->
  matches (build_filter rt c lo hi a o) it = satisfies f it.
Proof.
  intros (Hc & Hlo & Hhi & Ha & Ho) Hce Hoe.
  unfold matches, satisfies.
  rewrite (build_filter_price c lo hi a o _ _ (pricePerDay it) Hlo Hhi).
  unfold build_filter. simpl.
  rewrite <- Hc in Hce |- *. rewrite <- Ho in Hoe |- *.
  assert (Ec : (if truthy c then c else None) = c).
  { destruct c as [sc|]; simpl; [|reflexivity].
    destruct (String.eqb_spec sc ""); [subst; congruence | reflexivity]. }
  assert (Eo : (if truthy o then o else None) = o).
  { destruct o as [so|]; simpl; [|reflexivity].
    destruct (String.eqb_spec so ""); [subst; congruence | reflexivity]. }
  assert (Ea : match a with
               | Some a0 => Some (a0 =? "true")
               | None => None
               end = Spec.available f).
  { destruct a as [sa|], (Spec.available f) as [b|]; simpl in Ha;
      try contradiction; [|reflexivity].
    subst sa. now destruct b. }
  rewrite Ec, Eo, Ea. btauto.
Qed.

(** C6, amended: for every filter whose category and ownerEmail, when
    supplied, are not empty, and every store, [listItems] returns exactly
    the stored items that satisfy every supplied field, the price bounds
    included; with no field supplied it returns every item. *)
Theorem listItems_filter (c lo hi a o : option string) (f : Spec.filter)
    (db : Store) :
  encodes rt c lo hi a o f ->
  Spec.category f <> Some "" -> Spec.ownerEmail f <> Some "" ->
  listItems rt c lo hi a o db
  = (res_json (JItems (filter (satisfies f) (items db))), db)
  /\ listItems rt None None None None None db
     = (res_json (JItems (items db)), db).
Proof.
  intros Henc Hc Ho. split.
  - unfold listItems, Item_find.
    rewrite (build_filter_casts _ _ _ _ _ _ Henc). simpl.
    do 3 f_equal. apply filter_ext. intros it.
    now apply build_filter_matches.
  - unfold listItems, Item_find. simpl.
    now rewrite filter_all.
Qed.

(** *** Searching by title *)


End Properties.

(** ** The theorems on concrete requests *)

Lemma bookItem_dates_witness :
  (outcome_of
     (fst (bookItem Demo.runtime 0%nat (Some "2024-01-05") (Some "2024-01-01")
             Demo.ladder_store))
   = Some Success
   /\ exists it',
        Item_findById 0%nat
          (snd (bookItem Demo.runtime 0%nat (Some "2024-01-05")
                  (Some "2024-01-01") Demo.ladder_store))
        = Some it'
        /\ rentedFrom it' = DateVal 1704412800000
        /\ rentedTill it' = DateVal 1704067200000)
  /\ (outcome_of
        (fst (bookItem Demo.runtime 0%nat (Some "2024-01-05") (Some "later")
                Demo.ladder_store))
      = Some (Failure InternalError)
      /\ snd (bookItem Demo.runtime 0%nat (Some "2024-01-05") (Some "later")
                Demo.ladder_store)
         = Demo.ladder_store).
Proof.
  split.
  - apply (proj1 (bookItem_dates Demo.runtime 0%nat "2024-01-05" "2024-01-01"
                    Demo.ladder_store Demo.ladder eq_refl eq_refl));
      reflexivity.
  - apply (proj2 (bookItem_dates Demo.runtime 0%nat "2024-01-05" "later"
                    Demo.ladder_store Demo.ladder eq_refl eq_refl)).
    right. reflexivity.
Defined.

(** C5 as stated fails: two strings that are no dates are not stored; the
    call fails and the ladder keeps its unset dates. *)
Lemma bookItem_invalid_dates_not_stored :
  Item_findById 0%nat Demo.ladder_store = Some Demo.ladder
  /\ available Demo.ladder = true
  /\ Date_new Demo.runtime (Some "next week") = InvalidDate
  /\ Date_new Demo.runtime (Some "soon") = InvalidDate
  /\ outcome_of
       (fst (bookItem Demo.runtime 0%nat (Some "next week") (Some "soon")
               Demo.ladder_store))
     = Some (Failure InternalError)
  /\ Item_findById 0%nat
       (snd (bookItem Demo.runtime 0%nat (Some "next week") (Some "soon")
               Demo.ladder_store))
     = Some Demo.ladder
  /\ rentedFrom Demo.ladder = Absent /\ rentedTill Demo.ladder = Absent.
Proof. repeat split. Qed.

Lemma book_return_frame_witness :
  (exists it',
     Item_findById 0%nat Demo.booked_store = Some it'
     /\ same_listing Demo.ladder it')
  /\ (exists it',
        Item_findById 0%nat (snd (returnItem 0%nat Demo.ladder_store))
        = Some it'
        /\ same_listing Demo.ladder it').
Proof.
  pose proof (book_return_frame Demo.runtime 0%nat (Some "2024-01-01")
                (Some "2024-01-05") Demo.ladder_store Demo.ladder eq_refl)
    as [Hbook Hreturn].
  split; [apply Hbook | apply Hreturn]; reflexivity.
Defined.

Lemma availability_lifecycle_witness :
  (forall it, In it (items Demo.booked_store) -> item_inv it)
  /\ (available Demo.ladder = true
      /\ exists now t d p c i o,
           AddItem 1700000000000 (Some "Ladder") None (Some (Fin 10%Q))
             (Some "tools") None (Some "a@x.com")
           = AddItem now t d p c i o)
  /\ (exists s e,
        BookItem 0%nat (Some "2024-01-01") (Some "2024-01-05")
        = BookItem 0%nat s e)
  /\ snd (bookItem Demo.runtime 0%nat (Some "2024-02-01") (Some "2024-02-05")
            Demo.booked_store)
     = Demo.booked_store
  /\ ReturnItem 0%nat = ReturnItem 0%nat
  /\ option_map available
       (Item_findById 0%nat (snd (returnItem 0%nat Demo.booked_store)))
     = Some true.
Proof.
  destruct (availability_lifecycle Demo.runtime)
    as (Hinv & Hnew & Hbook & Hguard & Hback & Hreturn).
  split; [|split; [|split; [|split; [|split]]]].
  - apply Hinv.
    apply (reachable_step Demo.runtime
             (BookItem 0%nat (Some "2024-01-01") (Some "2024-01-05"))
             Demo.ladder_store).
    apply (reachable_step Demo.runtime
             (AddItem 1700000000000 (Some "Ladder") None (Some (Fin 10%Q))
                (Some "tools") None (Some "a@x.com"))
             empty_store).
    apply reachable_empty.
  - apply (Hnew (AddItem 1700000000000 (Some "Ladder") None (Some (Fin 10%Q))
                   (Some "tools") None (Some "a@x.com"))
             empty_store 0%nat Demo.ladder); reflexivity.
  - apply (Hbook (BookItem 0%nat (Some "2024-01-01") (Some "2024-01-05"))
             Demo.ladder_store 0%nat Demo.ladder
             (booked Demo.ladder 1704067200000 1704412800000));
      reflexivity.
  - apply (Hguard 0%nat (Some "2024-02-01") (Some "2024-02-05")
             Demo.booked_store
             (booked Demo.ladder 1704067200000 1704412800000));
      reflexivity.
  - apply (Hback (ReturnItem 0%nat) Demo.booked_store 0%nat
             (booked Demo.ladder 1704067200000 1704412800000)
             (returned (booked Demo.ladder 1704067200000 1704412800000)));
      reflexivity.
  - apply (Hreturn 0%nat Demo.booked_store
             (booked Demo.ladder 1704067200000 1704412800000)).
    reflexivity.
Defined.

Lemma operations_atomic_witness :
  snd (handle Demo.runtime (BookItem 0%nat (Some "2024-02-01") None)
         Demo.booked_store)
  = Demo.booked_store
  /\ snd (handle Demo.runtime
            (Register "salt" (Some "a@x.com") (Some "other")) Demo.alice_store)
     = Demo.alice_store.
Proof.
  split.
  - apply (proj2 (operations_atomic Demo.runtime
                    (BookItem 0%nat (Some "2024-02-01") None)
                    Demo.booked_store) ConflictError).
    reflexivity.
  - apply (proj2 (operations_atomic Demo.runtime
                    (Register "salt" (Some "a@x.com") (Some "other"))
                    Demo.alice_store) DuplicateError).
    reflexivity.
Defined.

Lemma listItems_filter_witness :
  listItems Demo.runtime (Some "tools") (Some "10") (Some "10") (Some "true")
    None Demo.ladder_store
  = (res_json
       (JItems (filter (satisfies Demo.tools_10_available)
                  (items Demo.ladder_store))),
     Demo.ladder_store)
  /\ listItems Demo.runtime None None None None None Demo.ladder_store
     = (res_json (JItems (items Demo.ladder_store)), Demo.ladder_store).
Proof.
  apply (listItems_filter Demo.runtime (Some "tools") (Some "10") (Some "10")
           (Some "true") None Demo.tools_10_available Demo.ladder_store).
  - repeat split; discriminate.
  - discriminate.
  - discriminate.
Defined.

(** C6 as stated fails: the category filter is supplied, as the empty
    string; no stored item has that category, yet the ladder is returned. *)
Lemma listItems_empty_category :
  encodes Demo.runtime (Some "") None None None None Demo.empty_category
  /\ filter (satisfies Demo.empty_category) (items Demo.ladder_store) = []
  /\ listItems Demo.runtime (Some "") None None None None Demo.ladder_store
     = (res_json (JItems [Demo.ladder]), Demo.ladder_store).
Proof. repeat split. Qed.

(** ** The credential handlers *)

Section Credentials.

Variable rt : Runtime.

Lemma register_eq (salt : string) (e p : option string) (db : Store) :
  register rt salt e p db =
  match e, p with
  | Some e', Some p' =>
      if (e' =? "") || (p' =? "") then
        ({| status := 400; json := JMsg "Email and password required" |}, db)
      else
        match User_findOne e' db with
        | Some _ =>
            ({| status := 400; json := JMsg "User already exists" |}, db)
        | None =>
            if bcrypt_hash rt p' salt =? "" then (server_error, db)
            else
              ({| status := 201; json := JMsg "User registered successfully" |},
               {| users :=
                    users db
                    ++ [{| email := e'; password := bcrypt_hash rt p' salt |}];
                  items := items db;
                  next_oid := next_oid db |})
        end
  | _, _ =>
      ({| status := 400; json := JMsg "Email and password required" |}, db)
  end.
Proof.
  unfold register, truthy.
  destruct e as [e'|]; [|reflexivity].
  destruct p as [p'|]; [|now destruct (e' =? "")].
  destruct (e' =? "") eqn:Ee; [reflexivity|].
  destruct (p' =? "") eqn:Ep; [reflexivity|]. simpl.
  destruct (User_findOne e' db) eqn:Hu; [reflexivity|].
  unfold User_save. simpl. rewrite Ee, Hu. simpl.
  now destruct (bcrypt_hash rt p' salt =? "").
Qed.

Lemma login_eq (e p : option string) (db : Store) :
  login rt e p db =
  match e, p with
  | Some e', Some p' =>
      if (e' =? "") || (p' =? "") then
        ({| status := 400; json := JMsg "Email and password required" |}, db)
      else
        match User_findOne e' db with
        | Some u =>
            if bcrypt_compare rt p' (password u) then
              (res_json (JMsg "Login successful"), db)
            else
              ({| status := 400; json := JMsg "Invalid email or password" |},
               db)
        | None =>
            ({| status := 400; json := JMsg "Invalid email or password" |}, db)
        end
  | _, _ =>
      ({| status := 400; json := JMsg "Email and password required" |}, db)
  end.
Proof.
  unfold login, truthy.
  destruct e as [e'|]; [|reflexivity].
  destruct p as [p'|]; [|now destruct (e' =? "")].
  destruct (e' =? ""); [reflexivity|].
  destruct (p' =? ""); [reflexivity|]. simpl.
  destruct (User_findOne e' db); [|reflexivity].
  now destruct (bcrypt_compare rt p' (password u)).
Qed.

Lemma findOne_email (e : string) (db : Store) (u : User) :
  User_findOne e db = Some u -> email u = e /\ In u (users db).
Proof.
  unfold User_findOne. intros H. apply find_some in H.
  destruct H as [Hin He]. split; [now apply String.eqb_eq | exact Hin].
Qed.

Lemma findOne_none (e : string) (db : Store) :
  User_findOne e db = None -> ~ In e (map email (users db)).
Proof.
  unfold User_findOne. intros H Hin. apply in_map_iff in Hin.
  destruct Hin as [u [He Hin]].
  apply (find_none _ _ H) in Hin. simpl in Hin.
  rewrite He, String.eqb_refl in Hin. discriminate.
Qed.

(** X2: once an email has been registered, a further [register] with that
    email and any password that is not empty fails with DuplicateError and
    changes nothing. *)
Theorem register_twice (salt salt' : string) (e : string) (p : option string)
    (p' : string) (db : Store) :
  outcome_of (fst (register rt salt (Some e) p db)) = Some Success ->
  p' <> "" ->
  outcome_of
    (fst (register rt salt' (Some e) (Some p') (snd (register rt salt (Some e) p db))))
  = Some (Failure DuplicateError)
  /\ snd (register rt salt' (Some e) (Some p')
            (snd (register rt salt (Some e) p db)))
     = snd (register rt salt (Some e) p db).
Proof.
  intros Hok Hp'. rewrite (register_eq salt) in *.
  destruct p as [p0|]; [|discriminate].
  destruct (e =? "") eqn:Ee; [discriminate|].
  destruct (p0 =? "") eqn:Ep; [discriminate|]. simpl in *.
  destruct (User_findOne e db) eqn:Hu; [discriminate|].
  destruct (bcrypt_hash rt p0 salt =? ""); [discriminate|]. simpl.
  rewrite register_eq. apply String.eqb_neq in Hp'. rewrite Ee, Hp'. simpl.
  assert (Hf : User_findOne e
                 {| users := users db
                             ++ [{| email := e;
                                    password := bcrypt_hash rt p0 salt |}];
                    items := items db; next_oid := next_oid db |}
               = Some {| email := e; password := bcrypt_hash rt p0 salt |}).
  { unfold User_findOne in *. simpl. rewrite find_app_none by exact Hu.
    simpl. now rewrite String.eqb_refl. }
  rewrite Hf. split; reflexivity.
Qed.

(** X3: registering and then logging in with the same email and password
    succeeds, provided bcrypt accepts a password against its own hash; a
    password bcrypt rejects against that hash is answered with AuthError. *)
Theorem register_then_login (salt e p : string) (db : Store) :
  outcome_of (fst (register rt salt (Some e) (Some p) db)) = Some Success ->
  (bcrypt_compare rt p (bcrypt_hash rt p salt) = true ->
   outcome_of
     (fst (login rt (Some e) (Some p)
             (snd (register rt salt (Some e) (Some p) db))))
   = Some Success)
  /\ (forall p',
        p' <> "" -> bcrypt_compare rt p' (bcrypt_hash rt p salt) = false ->
        outcome_of
          (fst (login rt (Some e) (Some p')
                  (snd (register rt salt (Some e) (Some p) db))))
        = Some (Failure AuthError)).
Proof.
  intros Hok. rewrite register_eq in *.
  destruct (e =? "") eqn:Ee; [discriminate|].
  destruct (p =? "") eqn:Ep; [discriminate|]. simpl in *.
  destruct (User_findOne e db) eqn:Hu; [discriminate|].
  destruct (bcrypt_hash rt p salt =? ""); [discriminate|]. simpl.
  assert (Hf : User_findOne e
                 {| users := users db
                             ++ [{| email := e;
                                    password := bcrypt_hash rt p salt |}];
                    items := items db; next_oid := next_oid db |}
               = Some {| email := e; password := bcrypt_hash rt p salt |}).
  { unfold User_findOne in *. simpl. rewrite find_app_none by exact Hu.
    simpl. now rewrite String.eqb_refl. }
  split.
  - intros Hc. rewrite login_eq, Ee, Ep, Hf. simpl. now rewrite Hc.
  - intros p' Hp' Hc. apply String.eqb_neq in Hp'.
    rewrite login_eq, Ee, Hp', Hf. simpl. now rewrite Hc.
Qed.

(** X5: [login], [listItems] and [searchItems] only read: whatever the
    request and whatever they answer, the store afterwards is the store
    before. *)
Theorem reads_leave_store (e p c lo hi a o q : option string) (db : Store) :
  snd (login rt e p db) = db
  /\ snd (listItems rt c lo hi a o db) = db
  /\ snd (searchItems rt q db) = db.
Proof.
  split; [|split].
  - rewrite login_eq.
    destruct e as [e'|]; [|reflexivity]. destruct p as [p'|]; [|reflexivity].
    destruct (_ || _); [reflexivity|].
    destruct (User_findOne e' db) as [u|]; [|reflexivity].
    now destruct (bcrypt_compare rt p' (password u)).
  - unfold listItems. now destruct (Item_find _ db).
  - unfold searchItems. now destruct (Item_find_regex rt q db).
Qed.

(** *** Users over time *)

Lemma handle_users (req : Request) (db : Store) :
  users (snd (handle rt req db)) = users db
  \/ exists u,
       users (snd (handle rt req db)) = users db ++ [u]
       /\ User_findOne (email u) db = None
       /\ valid_user u.
Proof.
  destruct req as [salt e p | e p | now t d p c i o | c lo hi a o | q
                  | id s e | id]; simpl.
  - rewrite register_eq.
    destruct e as [e'|]; [|now left]. destruct p as [p'|]; [|now left].
    destruct (String.eqb_spec e' ""); [now left|].
    destruct (String.eqb_spec p' ""); [now left|]. simpl.
    destruct (User_findOne e' db) eqn:Hu; [now left|].
    destruct (String.eqb_spec (bcrypt_hash rt p' salt) ""); [now left|].
    right. eexists. split; [reflexivity|]. split; [exact Hu|].
    split; assumption.
  - left. rewrite login_eq.
    destruct e as [e'|]; [|reflexivity]. destruct p as [p'|]; [|reflexivity].
    destruct (_ || _); [reflexivity|].
    destruct (User_findOne e' db) as [u|]; [|reflexivity].
    now destruct (bcrypt_compare rt p' (password u)).
  - left. rewrite addItem_eq.
    destruct t, p, c, o; try reflexivity. now destruct (_ || _).
  - left. unfold listItems. now destruct (Item_find _ db).
  - left. unfold searchItems. now destruct (Item_find_regex rt q db).
  - left. rewrite bookItem_eq.
    destruct (Item_findById id db) as [it|]; [|reflexivity].
    destruct (available it); [|reflexivity].
    destruct (Date_new rt s); [reflexivity|].
    now destruct (Date_new rt e).
  - left. rewrite returnItem_eq. now destruct (Item_findById id db).
Qed.

Lemma findOne_step (req : Request) (db : Store) (e : string) (u : User) :
  User_findOne e db = Some u ->
  User_findOne e (snd (handle rt req db)) = Some u.
Proof.
  intros Hu. unfold User_findOne in *.
  destruct (handle_users req db) as [-> | [u' [-> _]]]; [exact Hu|].
  now apply find_app_some.
Qed.

Lemma findOne_run (reqs : list Request) (db : Store) (e : string) (u : User) :
  User_findOne e db = Some u -> User_findOne e (run rt reqs db) = Some u.
Proof.
  revert db. induction reqs as [|req rest IH]; intros db Hu; simpl.
  - exact Hu.
  - apply IH. now apply findOne_step.
Qed.

(** X6: in every store the server can reach, no two users share an email,
    and every user has an email and a password hash that are not empty. *)
Theorem users_unique (db : Store) :
  reachable rt db ->
  NoDup (map email (users db))
  /\ (forall u, In u (users db) -> valid_user u).
Proof.
  intros Hr. induction Hr as [|req db Hr [Hnd Hv]].
  - split; [constructor | intros u []].
  - destruct (handle_users req db) as [-> | [u [-> [Hu Hvu]]]];
      [now split|].
    split.
    + rewrite map_app. simpl.
      apply NoDup_app; [exact Hnd | repeat constructor; intros [] |].
      intros x Hx [<- | []]. now apply (findOne_none _ _ Hu).
    + intros x Hin. apply in_app_or in Hin.
      destruct Hin as [Hin | [<- | []]]; auto.
Qed.

(** X7: a registered user stays registered, with the same password hash,
    whatever requests follow: after any sequence of requests the lookup by
    email finds the same record, so [login] with that email answers as it
    did before. *)
Theorem registered_for_good (reqs : list Request) (db : Store) (e : string)
    (u : User) :
  User_findOne e db = Some u ->
  User_findOne e (run rt reqs db) = Some u
  /\ (forall p,
        fst (login rt (Some e) p (run rt reqs db))
        = fst (login rt (Some e) p db)).
Proof.
  intros Hu. pose proof (findOne_run reqs db e u Hu) as Hu'.
  split; [exact Hu'|]. intros p. rewrite !login_eq, Hu, Hu'.
  destruct p as [p'|]; [|reflexivity].
  destruct (_ || _); [reflexivity|].
  now destruct (bcrypt_compare rt p' (password u)).
Qed.

End Credentials.

(** ** The catalog handlers *)

Lemma replace_item_twice (a b : Item) (l : list Item) :
  _id a = _id b ->
  replace_item b (replace_item a l) = replace_item b l.
Proof.
  intros Hid. induction l as [|x r IH]; simpl; [reflexivity|].
  destruct (_id x =? _id a)%nat eqn:E; simpl.
  - rewrite Hid in E. rewrite E. now rewrite Hid, Nat.eqb_refl.
  - rewrite Hid in E. rewrite E. now rewrite IH.
Qed.

Lemma same_listing_refl (it : Item) : same_listing it it.
Proof. unfold same_listing. repeat split. Qed.

Lemma same_listing_trans (a b c : Item) :
  same_listing a b -> same_listing b c -> same_listing a c.
Proof.
  unfold same_listing.
  intros (H1 & H2 & H3 & H4 & H5 & H6 & H7 & H8)
         (K1 & K2 & K3 & K4 & K5 & K6 & K7 & K8).
  repeat split; congruence.
Qed.

Lemma num_leb_trans (a b c : number) :
  num_leb a b = true -> num_leb b c = true -> num_leb a c = true.
Proof.
  destruct a as [|x|], b as [|y|], c as [|z|]; simpl;
    try reflexivity; try discriminate.
  rewrite !Qle_bool_iff. apply Qle_trans.
Qed.

Lemma filter_nothing (A : Type) (f : A -> bool) (l : list A) :
  (forall x, f x = false) -> filter f l = [].
Proof.
  intros H. induction l as [|a l IH]; simpl; [reflexivity|].
  now rewrite H.
Qed.

Section Catalog.

Variable rt : Runtime.

(** *** Adding *)

(** X8: [addItem] ends in a success or in a ValidationError, never in a
    server error: what its presence check lets through, the schema's
    required validators accept. *)
Theorem addItem_two_outcomes (now : Z) (t d : option string)
    (p : option number) (c i o : option string) (db : Store) :
  outcome_of (fst (addItem now t d p c i o db)) = Some Success
  \/ outcome_of (fst (addItem now t d p c i o db))
     = Some (Failure ValidationError).
Proof.
  rewrite addItem_eq.
  destruct t, p, c, o; auto. destruct (_ || _); auto.
Qed.

(** X9: in a store the server can reach, a successful [addItem] returns an
    identifier no stored item had, and looking that identifier up afterwards
    finds a record with the title, description, price, category, image and
    owner of the request, created at the time of the request. *)
Theorem addItem_roundtrip (now : Z) (t d : option string) (p : option number)
    (c i o : option string) (db : Store) :
  reachable rt db ->
  outcome_of (fst (addItem now t d p c i o db)) = Some Success ->
  exists id item,
    json (fst (addItem now t d p c i o db))
    = JMsgItemId "Item added successfully" id
    /\ Item_findById id db = None
    /\ Item_findById id (snd (addItem now t d p c i o db)) = Some item
    /\ Some (title item) = t /\ description item = d
    /\ Some (pricePerDay item) = p /\ Some (category item) = c
    /\ imageUrl item = i /\ Some (ownerEmail item) = o
    /\ createdAt item = now.
Proof.
  intros Hr. destruct (reachable_ids_fresh rt db Hr) as [Hlt _].
  rewrite addItem_eq.
  destruct t as [t'|]; [|discriminate]. destruct p as [p'|]; [|discriminate].
  destruct c as [c'|]; [|discriminate]. destruct o as [o'|]; [|discriminate].
  destruct (_ || _); [discriminate|]. intros _. simpl.
  assert (Hnone : Item_findById (next_oid db) db = None).
  { unfold Item_findById.
    destruct (find _ (items db)) as [x|] eqn:Hx; [|reflexivity].
    destruct (find_by_id_some _ _ _ Hx) as [Hid Hin].
    apply Hlt in Hin. lia. }
  exists (next_oid db).
  exists {| _id := next_oid db; title := t'; description := d;
            pricePerDay := p'; category := c'; imageUrl := i;
            available := true; ownerEmail := o';
            rentedFrom := Absent; rentedTill := Absent;
            createdAt := now |}.
  split; [reflexivity|]. split; [exact Hnone|]. split; [|repeat split].
  unfold Item_findById, Item_insert in *. simpl.
  rewrite find_app_none by exact Hnone. simpl. now rewrite Nat.eqb_refl.
Qed.

(** X10: [addItem] never touches what is already stored: every item that
    could be found before is found unchanged afterwards, and the users are
    as they were. *)
Theorem addItem_frame (now : Z) (t d : option string) (p : option number)
    (c i o : option string) (db : Store) :
  (forall id it,
     Item_findById id db = Some it ->
     Item_findById id (snd (addItem now t d p c i o db)) = Some it)
  /\ users (snd (addItem now t d p c i o db)) = users db.
Proof.
  rewrite addItem_eq.
  destruct t, p, c, o; try (split; [auto | reflexivity]).
  destruct (_ || _); [split; [auto | reflexivity]|].
  split; [|reflexivity]. intros id it Hf.
  unfold Item_findById, Item_insert in *. simpl. now apply find_app_some.
Qed.

(** *** Listing *)

(** X11: [listItems] fails, with InternalError, exactly when a price bound
    is supplied, not empty, and [Number] makes NaN of it; in every other case
    it succeeds. *)
Theorem listItems_nan_bound (c lo hi a o : option string) (db : Store) :
  (outcome_of (fst (listItems rt c lo hi a o db))
   = Some (Failure InternalError)
   <-> (exists s, lo = Some s /\ s <> "" /\ ToNumber rt s = None)
       \/ (exists s, hi = Some s /\ s <> "" /\ ToNumber rt s = None))
  /\ (outcome_of (fst (listItems rt c lo hi a o db)) = Some Success
      \/ outcome_of (fst (listItems rt c lo hi a o db))
         = Some (Failure InternalError)).
Proof.
  unfold listItems, Item_find, filter_casts, build_filter, truthy. simpl.
  split.
  - destruct lo as [slo|], hi as [shi|]; simpl;
      repeat match goal with
             | |- context [?x =? ""] => destruct (String.eqb_spec x "")
             end; simpl;
      repeat match goal with
             | |- context [ToNumber rt ?x] =>
                 destruct (ToNumber rt x) eqn:?
             end; simpl;
      (split;
       [ intros H; try discriminate;
         first [ left; eexists; repeat split; eauto; fail
               | right; eexists; repeat split; eauto; fail ]
       | intros [[s [E [Hne Hn]]] | [s [E [Hne Hn]]]];
         try discriminate; try injection E as <-;
         try congruence; try reflexivity ]).
  - destruct (_ || _); simpl; [|auto].
    destruct (bound_ok _ && bound_ok _); auto.
Qed.

(** X12: the [available] parameter counts as true only when it is the
    string [true]: with any other value, [listItems] returns the items that
    are not available. *)
Theorem listItems_available_not_true (a : string) (db : Store) :
  a <> "true" ->
  listItems rt None None None (Some a) None db
  = (res_json (JItems (filter (fun it => negb (available it)) (items db))),
     db).
Proof.
  intros Ha. apply String.eqb_neq in Ha.
  unfold listItems, Item_find, filter_casts, build_filter. simpl.
  rewrite Ha. do 3 f_equal. apply filter_ext. intros it.
  unfold matches. simpl. now destruct (available it).
Qed.

(** X13: a price range whose lower bound is above its upper bound is no
    error: [listItems] succeeds with no item, whatever the other fields of
    the filter. *)
Theorem listItems_empty_range (c a o : option string) (slo shi : string)
    (nlo nhi : number) (db : Store) :
  slo <> "" -> shi <> "" ->
  ToNumber rt slo = Some nlo -> ToNumber rt shi = Some nhi ->
  num_leb nlo nhi = false ->
  listItems rt c (Some slo) (Some shi) a o db = (res_json (JItems []), db).
Proof.
  intros Hlo Hhi Hnlo Hnhi Hcross.
  apply String.eqb_neq in Hlo, Hhi.
  unfold listItems, Item_find, filter_casts, build_filter, truthy. simpl.
  rewrite Hlo, Hhi, Hnlo, Hnhi. simpl.
  rewrite filter_nothing; [reflexivity|].
  intros it. unfold matches. simpl.
  destruct (num_leb nlo (pricePerDay it)) eqn:E1;
    [|now rewrite !andb_false_r].
  destruct (num_leb (pricePerDay it) nhi) eqn:E2;
    [|now rewrite !andb_false_r].
  rewrite (num_leb_trans _ _ _ E1 E2) in Hcross. discriminate.
Qed.

(** *** Searching *)

(** X14: the case of the query does not matter: two queries without
    regular-expression operators that differ only in the case of their
    letters get the same answer from [searchItems]. *)
Theorem searchItems_query_case (q q' : string) (db : Store) :
  plain q -> plain q' -> lower_string q = lower_string q' ->
  searchItems rt (Some q) db = searchItems rt (Some q') db.
Proof.
  intros Hq Hq' Hlow.
  unfold searchItems, Item_find_regex, regex_compile.
  rewrite (parse_plain q Hq), (parse_plain q' Hq').
  simpl. do 3 f_equal. apply filter_ext. intros it.
  rewrite (lower_string_empty q q' Hlow), <- (ascii_lower_string q), Hlow,
    (ascii_lower_string q').
  destruct (_ || _); [|reflexivity].
  destruct (Regex.search (lits q) (title it)) eqn:E1,
           (Regex.search (lits q') (title it)) eqn:E2; try reflexivity.
  - apply search_lits in E1. unfold contains_ci in E1. rewrite Hlow in E1.
    apply search_lits in E1. congruence.
  - apply search_lits in E2. unfold contains_ci in E2. rewrite <- Hlow in E2.
    apply search_lits in E2. congruence.
Qed.

(** *** Booking and returning *)

(** X15: a [bookItem] or a [returnItem] on one item never touches another:
    every other identifier finds what it found before, no item is created or
    removed, and the users are as they were. *)
Theorem book_return_others (id id' : ObjectId) (s e : option string)
    (db : Store) :
  id' <> id ->
  (Item_findById id' (snd (bookItem rt id s e db)) = Item_findById id' db
   /\ map _id (items (snd (bookItem rt id s e db))) = map _id (items db)
   /\ users (snd (bookItem rt id s e db)) = users db)
  /\ (Item_findById id' (snd (returnItem id db)) = Item_findById id' db
      /\ map _id (items (snd (returnItem id db))) = map _id (items db)
      /\ users (snd (returnItem id db)) = users db).
Proof.
  intros Hne. rewrite bookItem_eq, returnItem_eq.
  destruct (Item_findById id db) as [it|] eqn:Hf; [|repeat split].
  destruct (find_by_id_some _ _ _ Hf) as [Hid _].
  split.
  - destruct (available it); [|repeat split].
    destruct (Date_new rt s) as [|t1]; [repeat split|].
    destruct (Date_new rt e) as [|t2]; [repeat split|]. simpl.
    split; [|split; [apply map_id_replace | reflexivity]].
    apply findById_write_other. simpl. congruence.
  - simpl. split; [|split; [apply map_id_replace | reflexivity]].
    apply findById_write_other. simpl. congruence.
Qed.

(** X16: a return wipes a booking out: booking an item and then returning
    it leaves the store that returning it alone leaves, whether the booking
    succeeded or not; and returning twice is returning once. *)
Theorem return_absorbs (id : ObjectId) (s e : option string) (db : Store) :
  snd (returnItem id (snd (bookItem rt id s e db))) = snd (returnItem id db)
  /\ snd (returnItem id (snd (returnItem id db))) = snd (returnItem id db).
Proof.
  split.
  - rewrite bookItem_eq.
    destruct (Item_findById id db) as [it|] eqn:Hf; [|reflexivity].
    destruct (available it); [|reflexivity].
    destruct (Date_new rt s) as [|t1]; [reflexivity|].
    destruct (Date_new rt e) as [|t2]; [reflexivity|]. simpl.
    rewrite !returnItem_eq, Hf.
    rewrite (findById_write_same id it (booked it t1 t2) db Hf eq_refl).
    simpl. unfold write_item. simpl. f_equal.
    apply (replace_item_twice (booked it t1 t2) (returned it)). reflexivity.
  - rewrite (returnItem_eq id db).
    destruct (Item_findById id db) as [it|] eqn:Hf.
    + simpl. rewrite returnItem_eq.
      rewrite (findById_write_same id it (returned it) db Hf eq_refl).
      simpl. unfold write_item. simpl. f_equal.
      apply (replace_item_twice (returned it) (returned it)). reflexivity.
    + simpl. now rewrite returnItem_eq, Hf.
Qed.

(** X17: no item is rented for good: whatever state an item is in, after
    a [returnItem] on it a [bookItem] with two valid dates succeeds. *)
Theorem rebook_after_return (id : ObjectId) (s e : option string)
    (db : Store) (it : Item) (t1 t2 : Z) :
  Item_findById id db = Some it ->
  Date_new rt s = ValidDate t1 -> Date_new rt e = ValidDate t2 ->
  outcome_of (fst (bookItem rt id s e (snd (returnItem id db))))
  = Some Success.
Proof.
  intros Hf Hs He. rewrite returnItem_eq, Hf. simpl.
  rewrite bookItem_eq.
  rewrite (findById_write_same id it (returned it) db Hf eq_refl).
  simpl. now rewrite Hs, He.
Qed.

(** X18: [bookItem] succeeds exactly when the item exists, is available and
    both dates are valid; in particular a request that leaves out
    [startDate] or [endDate] on an available item fails with InternalError
    and leaves the store as it was. *)
Theorem bookItem_success_iff (id : ObjectId) (s e : option string)
    (db : Store) :
  (outcome_of (fst (bookItem rt id s e db)) = Some Success
   <-> exists it t1 t2,
         Item_findById id db = Some it /\ available it = true
         /\ Date_new rt s = ValidDate t1 /\ Date_new rt e = ValidDate t2)
  /\ (forall it,
        Item_findById id db = Some it -> available it = true ->
        s = None \/ e = None ->
        outcome_of (fst (bookItem rt id s e db))
        = Some (Failure InternalError)
        /\ snd (bookItem rt id s e db) = db).
Proof.
  rewrite bookItem_eq. split.
  - split.
    + destruct (Item_findById id db) as [it|]; [|discriminate].
      destruct (available it) eqn:Ha; [|discriminate].
      destruct (Date_new rt s) as [|t1] eqn:Hs; [discriminate|].
      destruct (Date_new rt e) as [|t2] eqn:He; [discriminate|].
      intros _. now exists it, t1, t2.
    + intros (it & t1 & t2 & -> & -> & -> & ->). reflexivity.
  - intros it -> -> [-> | ->]; simpl; [split; reflexivity|].
    destruct (Date_new rt s); split; reflexivity.
Qed.

(** *** Items over time *)

Lemma item_step (req : Request) (db : Store) (id : ObjectId) (it : Item) :
  Item_findById id db = Some it ->
  exists it',
    Item_findById id (snd (handle rt req db)) = Some it'
    /\ same_listing it it'.
Proof.
  intros Hf. unfold Item_findById.
  destruct (handle_step rt req db)
    as [E _ | now t d p c i o item _ _ _ _ _ E _
        | id0 s e it0 t1 t2 _ Hf0 _ E _ | id0 it0 _ Hf0 E _];
    rewrite E.
  - exists it. split; [exact Hf | apply same_listing_refl].
  - exists it. split; [now apply find_app_some | apply same_listing_refl].
  - destruct (find_by_id_some _ _ _ Hf0) as [Hid0 _].
    destruct (Nat.eq_dec id id0) as [->|Hd].
    + assert (it0 = it) by congruence. subst it0.
      exists (booked it t1 t2). split; [|apply booked_fields].
      apply (findById_write_same id0 it (booked it t1 t2) db Hf eq_refl).
    + exists it. split; [|apply same_listing_refl].
      rewrite find_replace_other by (simpl; congruence). exact Hf.
  - destruct (find_by_id_some _ _ _ Hf0) as [Hid0 _].
    destruct (Nat.eq_dec id id0) as [->|Hd].
    + assert (it0 = it) by congruence. subst it0.
      exists (returned it). split; [|apply returned_fields].
      apply (findById_write_same id0 it (returned it) db Hf eq_refl).
    + exists it. split; [|apply same_listing_refl].
      rewrite find_replace_other by (simpl; congruence). exact Hf.
Qed.

(** X19: a listing is for good: after any sequence of requests an item that
    was stored is still found under its identifier, with the title,
    description, price, category, image, owner and creation time it had;
    no request deletes or edits a listing. *)
Theorem listing_for_good (reqs : list Request) (db : Store) (id : ObjectId)
    (it : Item) :
  Item_findById id db = Some it ->
  exists it',
    Item_findById id (run rt reqs db) = Some it' /\ same_listing it it'.
Proof.
  revert db it. induction reqs as [|req rest IH]; intros db it Hf; simpl.
  - exists it. split; [exact Hf | apply same_listing_refl].
  - destruct (item_step req db id it Hf) as [it1 [Hf1 H1]].
    destruct (IH _ _ Hf1) as [it' [Hf' H']].
    exists it'. split; [exact Hf'|]. eapply same_listing_trans; eassumption.
Qed.

Lemma valid_listing_same (a b : Item) :
  same_listing a b -> valid_listing a -> valid_listing b.
Proof.
  unfold same_listing, valid_listing.
  intros (_ & Ht & _ & _ & Hc & _ & Ho & _) (H1 & H2 & H3).
  rewrite <- Ht, <- Hc, <- Ho. auto.
Qed.

(** X20: every item of a store the server can reach has a title, a
    category and an owner that are not empty. *)
Theorem stored_listings_valid (db : Store) :
  reachable rt db -> forall it, In it (items db) -> valid_listing it.
Proof.
  intros Hr. induction Hr as [|req db Hr IH]; [intros it []|].
  intros it Hin.
  destruct req as [salt e p | e p | now t d p c i o | c lo hi a o | q
                  | id s e | id];
    try (match type of Hin with
         | context [handle rt ?r db] =>
             destruct (handle_step rt r db)
               as [E _ | ? ? ? ? ? ? ? ? Hreq _ _ _ _ _ _
                   | id0 s0 e0 it0 t1 t2 _ Hf0 _ E _ | id0 it0 _ Hf0 E _]
         end;
         [ rewrite E in Hin; now apply IH
         | discriminate Hreq
         | rewrite E in Hin; apply in_replace_item in Hin;
           destruct Hin as [-> | Hin]; [|now apply IH];
           apply (valid_listing_same it0); [apply booked_fields|];
           apply IH; now apply (find_by_id_some _ _ _ Hf0)
         | rewrite E in Hin; apply in_replace_item in Hin;
           destruct Hin as [-> | Hin]; [|now apply IH];
           apply (valid_listing_same it0); [apply returned_fields|];
           apply IH; now apply (find_by_id_some _ _ _ Hf0) ]).
  cbn [handle] in Hin. rewrite addItem_eq in Hin.
  destruct t as [t'|]; [|now apply IH]. destruct p as [p'|]; [|now apply IH].
  destruct c as [c'|]; [|now apply IH]. destruct o as [o'|]; [|now apply IH].
  destruct (String.eqb_spec t' ""); [now apply IH|].
  destruct (is_zero p') eqn:Hz; [now apply IH|].
  destruct (String.eqb_spec c' ""); [now apply IH|].
  destruct (String.eqb_spec o' ""); [now apply IH|].
  simpl in Hin. apply in_app_or in Hin.
  destruct Hin as [Hin | [<- | []]]; [now apply IH|].
  unfold valid_listing. simpl. auto.
Qed.

End Catalog.

(** ** The further theorems on concrete requests *)

Lemma register_twice_witness :
  outcome_of
    (fst (register Demo.runtime "pepper" (Some "a@x.com") (Some "other")
            Demo.alice_store))
  = Some (Failure DuplicateError)
  /\ snd (register Demo.runtime "pepper" (Some "a@x.com") (Some "other")
            Demo.alice_store)
     = Demo.alice_store.
Proof.
  apply (register_twice Demo.runtime "salt" "pepper" "a@x.com" (Some "secret")
           "other" empty_store).
  - reflexivity.
  - discriminate.
Defined.

Lemma register_then_login_witness :
  outcome_of
    (fst (login Demo.runtime (Some "a@x.com") (Some "secret") Demo.alice_store))
  = Some Success
  /\ outcome_of
       (fst (login Demo.runtime (Some "a@x.com") (Some "guess")
               Demo.alice_store))
     = Some (Failure AuthError).
Proof.
  pose proof (register_then_login Demo.runtime "salt" "a@x.com" "secret"
                empty_store eq_refl) as [Hok Hbad].
  split.
  - apply Hok. reflexivity.
  - apply (Hbad "guess"); [discriminate | reflexivity].
Defined.

Lemma users_unique_witness :
  NoDup (map email (users Demo.alice_store))
  /\ (forall u, In u (users Demo.alice_store) -> valid_user u).
Proof.
  apply (users_unique Demo.runtime Demo.alice_store).
  apply (reachable_step Demo.runtime
           (Register "salt" (Some "a@x.com") (Some "secret")) empty_store).
  apply reachable_empty.
Defined.

Lemma registered_for_good_witness :
  User_findOne "a@x.com" (run Demo.runtime Demo.busy_day Demo.campus_store)
  = Some Demo.alice
  /\ (forall p,
        fst (login Demo.runtime (Some "a@x.com") p
               (run Demo.runtime Demo.busy_day Demo.campus_store))
        = fst (login Demo.runtime (Some "a@x.com") p Demo.campus_store)).
Proof.
  apply (registered_for_good Demo.runtime Demo.busy_day Demo.campus_store
           "a@x.com" Demo.alice).
  reflexivity.
Defined.

Lemma addItem_roundtrip_witness :
  exists id item,
    json (fst (addItem 1700000001000 (Some "Power Drill") (Some "cordless")
                 (Some (Fin 15%Q)) (Some "tools") None (Some "b@x.com")
                 Demo.ladder_store))
    = JMsgItemId "Item added successfully" id
    /\ Item_findById id Demo.ladder_store = None
    /\ Item_findById id Demo.two_store = Some item
    /\ Some (title item) = Some "Power Drill"
    /\ description item = Some "cordless"
    /\ Some (pricePerDay item) = Some (Fin 15%Q)
    /\ Some (category item) = Some "tools"
    /\ imageUrl item = None /\ Some (ownerEmail item) = Some "b@x.com"
    /\ createdAt item = 1700000001000%Z.
Proof.
  apply (addItem_roundtrip Demo.runtime 1700000001000 (Some "Power Drill")
           (Some "cordless") (Some (Fin 15%Q)) (Some "tools") None
           (Some "b@x.com") Demo.ladder_store).
  - apply (reachable_step Demo.runtime Demo.add_ladder empty_store).
    apply reachable_empty.
  - reflexivity.
Defined.

Lemma addItem_frame_witness :
  Item_findById 0%nat Demo.two_store = Some Demo.ladder.
Proof.
  apply (proj1 (addItem_frame 1700000001000 (Some "Power Drill")
                  (Some "cordless") (Some (Fin 15%Q)) (Some "tools") None
                  (Some "b@x.com") Demo.ladder_store)).
  reflexivity.
Defined.

Lemma listItems_nan_bound_witness :
  outcome_of
    (fst (listItems Demo.runtime None (Some "cheap") None None None
            Demo.ladder_store))
  = Some (Failure InternalError).
Proof.
  apply (proj1 (listItems_nan_bound Demo.runtime None (Some "cheap") None None
                  None Demo.ladder_store)).
  left. exists "cheap". repeat split. discriminate.
Defined.

Lemma listItems_available_not_true_witness :
  listItems Demo.runtime None None None (Some "TRUE") None Demo.booked_store
  = (res_json
       (JItems (filter (fun it => negb (available it))
                  (items Demo.booked_store))),
     Demo.booked_store).
Proof.
  apply (listItems_available_not_true Demo.runtime "TRUE" Demo.booked_store).
  discriminate.
Defined.

Lemma listItems_empty_range_witness :
  listItems Demo.runtime (Some "tools") (Some "20") (Some "5") None None
    Demo.two_store
  = (res_json (JItems []), Demo.two_store).
Proof.
  apply (listItems_empty_range Demo.runtime (Some "tools") None None "20" "5"
           (Fin 20%Q) (Fin 5%Q) Demo.two_store);
    try discriminate; reflexivity.
Defined.

Lemma searchItems_query_case_witness :
  searchItems Demo.runtime (Some "drill") Demo.two_store
  = searchItems Demo.runtime (Some "DRILL") Demo.two_store.
Proof.
  apply (searchItems_query_case Demo.runtime "drill" "DRILL" Demo.two_store).
  - intros c [<- | [<- | [<- | [<- | [<- | []]]]]]; reflexivity.
  - intros c [<- | [<- | [<- | [<- | [<- | []]]]]]; reflexivity.
  - reflexivity.
Defined.

Lemma book_return_others_witness :
  (Item_findById 0%nat
     (snd (bookItem Demo.runtime 1%nat (Some "2024-01-01") (Some "2024-01-05")
             Demo.two_store))
   = Item_findById 0%nat Demo.two_store
   /\ map _id
        (items (snd (bookItem Demo.runtime 1%nat (Some "2024-01-01")
                       (Some "2024-01-05") Demo.two_store)))
      = map _id (items Demo.two_store)
   /\ users
        (snd (bookItem Demo.runtime 1%nat (Some "2024-01-01")
                (Some "2024-01-05") Demo.two_store))
      = users Demo.two_store)
  /\ (Item_findById 0%nat (snd (returnItem 1%nat Demo.two_store))
      = Item_findById 0%nat Demo.two_store
      /\ map _id (items (snd (returnItem 1%nat Demo.two_store)))
         = map _id (items Demo.two_store)
      /\ users (snd (returnItem 1%nat Demo.two_store))
         = users Demo.two_store).
Proof.
  apply (book_return_others Demo.runtime 1%nat 0%nat (Some "2024-01-01")
           (Some "2024-01-05") Demo.two_store).
  discriminate.
Defined.

Lemma rebook_after_return_witness :
  outcome_of
    (fst (bookItem Demo.runtime 0%nat (Some "2024-03-01") (Some "2024-03-02")
            (snd (returnItem 0%nat Demo.booked_store))))
  = Some Success.
Proof.
  apply (rebook_after_return Demo.runtime 0%nat (Some "2024-03-01")
           (Some "2024-03-02") Demo.booked_store
           (booked Demo.ladder 1704067200000 1704412800000)
           1709251200000%Z 1709337600000%Z);
    reflexivity.
Defined.

Lemma bookItem_success_iff_witness :
  outcome_of
    (fst (bookItem Demo.runtime 0%nat (Some "2024-01-01") None
            Demo.ladder_store))
  = Some (Failure InternalError)
  /\ snd (bookItem Demo.runtime 0%nat (Some "2024-01-01") None
            Demo.ladder_store)
     = Demo.ladder_store.
Proof.
  apply (proj2 (bookItem_success_iff Demo.runtime 0%nat (Some "2024-01-01")
                  None Demo.ladder_store) Demo.ladder);
    try reflexivity.
  right. reflexivity.
Defined.

Lemma listing_for_good_witness :
  exists it',
    Item_findById 0%nat (run Demo.runtime Demo.busy_day Demo.ladder_store)
    = Some it'
    /\ same_listing Demo.ladder it'.
Proof.
  apply (listing_for_good Demo.runtime Demo.busy_day Demo.ladder_store 0%nat
           Demo.ladder).
  reflexivity.
Defined.

Lemma stored_listings_valid_witness : valid_listing Demo.ladder.
Proof.
  apply (stored_listings_valid Demo.runtime Demo.ladder_store).
  - apply (reachable_step Demo.runtime Demo.add_ladder empty_store).
    apply reachable_empty.
  - left. reflexivity.
Defined.

(** ** The handlers on requests as they arrive *)

Section Arrivals.

Variable rt : Runtime.

(** On an email and a password that are strings or absent, and on an [:id]
    that casts, the handlers are the ones studied above. *)
Lemma post_register_fields (salt : string) (e p : option string) (db : Store) :
  post_register rt salt (of_field e) (of_field p) db = register rt salt e p db.
Proof.
  unfold post_register, register.
  destruct e as [e'|]; [|reflexivity].
  destruct p as [p'|]; simpl; [|now destruct (e' =? "")].
  destruct (e' =? ""); [reflexivity|].
  destruct (p' =? ""); [reflexivity|]. simpl.
  destruct (User_findOne e' db); reflexivity.
Qed.

Lemma post_login_fields (e p : option string) (db : Store) :
  post_login rt (of_field e) (of_field p) db = login rt e p db.
Proof.
  unfold post_login, login.
  destruct e as [e'|]; [|reflexivity].
  destruct p as [p'|]; simpl; [|now destruct (e' =? "")].
  destruct (e' =? ""); [reflexivity|].
  destruct (p' =? ""); [reflexivity|]. simpl.
  destruct (User_findOne e' db) as [u|]; [|reflexivity]. simpl.
  now destruct (bcrypt_compare rt p' (password u)).
Qed.

Lemma post_book_cast (idp : string) (id : ObjectId) (s e : option string)
    (db : Store) :
  ObjectId_cast rt idp = Some id ->
  post_book rt idp s e db = bookItem rt id s e db.
Proof.
  intros H. unfold post_book, bookItem, Item_findById_param. now rewrite H.
Qed.

Lemma post_return_cast (idp : string) (id : ObjectId) (db : Store) :
  ObjectId_cast rt idp = Some id ->
  post_return rt idp db = returnItem id db.
Proof.
  intros H. unfold post_return, returnItem, Item_findById_param.
  now rewrite H.
Qed.

Lemma post_book_no_cast (idp : string) (s e : option string) (db : Store) :
  ObjectId_cast rt idp = None -> post_book rt idp s e db = (server_error, db).
Proof.
  intros H. unfold post_book, Item_findById_param. now rewrite H.
Qed.

Lemma post_return_no_cast (idp : string) (db : Store) :
  ObjectId_cast rt idp = None -> post_return rt idp db = (server_error, db).
Proof.
  intros H. unfold post_return, Item_findById_param. now rewrite H.
Qed.

(** C1, amended: for every call [bookItem(id, startDate, endDate)] whose
    [id] is a well-formed identifier: with no item of that id it fails with
    NotFoundError; with an item that is not available it fails with
    ConflictError; with an available item and two valid dates it succeeds,
    and afterwards the item is not available, [rentedFrom] is the start
    date, [rentedTill] is the end date, and any further [bookItem] on the
    item fails with ConflictError.  A call whose [id] is no well-formed
    identifier fails with InternalError and changes nothing. *)
Theorem post_book_outcomes (idp : string) (s e : option string) (db : Store) :
  (ObjectId_cast rt idp = None ->
   outcome_of (fst (post_book rt idp s e db)) = Some (Failure InternalError)
   /\ snd (post_book rt idp s e db) = db)
  /\ (forall id,
        ObjectId_cast rt idp = Some id -> Item_findById id db = None ->
        outcome_of (fst (post_book rt idp s e db))
        = Some (Failure NotFoundError))
  /\ (forall id it,
        ObjectId_cast rt idp = Some id ->
        Item_findById id db = Some it -> available it = false ->
        outcome_of (fst (post_book rt idp s e db))
        = Some (Failure ConflictError))
  /\ (forall id it t1 t2,
        ObjectId_cast rt idp = Some id ->
        Item_findById id db = Some it -> available it = true ->
        Date_new rt s = ValidDate t1 -> Date_new rt e = ValidDate t2 ->
        outcome_of (fst (post_book rt idp s e db)) = Some Success
        /\ (exists it',
              Item_findById id (snd (post_book rt idp s e db)) = Some it'
              /\ available it' = false
              /\ rentedFrom it' = DateVal t1
              /\ rentedTill it' = DateVal t2)
        /\ (forall s' e',
              outcome_of
                (fst (post_book rt idp s' e' (snd (post_book rt idp s e db))))
              = Some (Failure ConflictError))).
Proof.
  split; [|split; [|split]].
  - intros H. rewrite (post_book_no_cast _ _ _ _ H). split; reflexivity.
  - intros id H Hf. rewrite (post_book_cast _ _ _ _ _ H), bookItem_eq, Hf.
    reflexivity.
  - intros id it H Hf Ha.
    rewrite (post_book_cast _ _ _ _ _ H), bookItem_eq, Hf, Ha. reflexivity.
  - intros id it t1 t2 H Hf Ha Hs He.
    rewrite (post_book_cast _ _ _ _ _ H), bookItem_eq, Hf, Ha, Hs, He. simpl.
    assert (Hf' : Item_findById id (write_item (booked it t1 t2) db)
                  = Some (booked it t1 t2))
      by (eapply findById_write_same; [eassumption | reflexivity]).
    split; [reflexivity|]. split.
    + exists (booked it t1 t2). split; [exact Hf'|]. repeat split.
    + intros s' e'.
      rewrite (post_book_cast _ _ _ _ _ H), bookItem_eq, Hf'. reflexivity.
Qed.

(** C3, amended: for every call [returnItem(id)] whose [id] is a
    well-formed identifier: with no item of that id it fails with
    NotFoundError; otherwise it succeeds and afterwards the item is
    available with [rentedFrom] and [rentedTill] unset; on an item that is
    already available it succeeds too and the item stays available.  A call
    whose [id] is no well-formed identifier fails with InternalError and
    changes nothing. *)
Theorem post_return_outcomes (idp : string) (db : Store) :
  (ObjectId_cast rt idp = None ->
   outcome_of (fst (post_return rt idp db)) = Some (Failure InternalError)
   /\ snd (post_return rt idp db) = db)
  /\ (forall id,
        ObjectId_cast rt idp = Some id -> Item_findById id db = None ->
        outcome_of (fst (post_return rt idp db))
        = Some (Failure NotFoundError))
  /\ (forall id it,
        ObjectId_cast rt idp = Some id -> Item_findById id db = Some it ->
        outcome_of (fst (post_return rt idp db)) = Some Success
        /\ exists it',
             Item_findById id (snd (post_return rt idp db)) = Some it'
             /\ available it' = true
             /\ is_unset (rentedFrom it')
             /\ is_unset (rentedTill it'))
  /\ (forall id it,
        ObjectId_cast rt idp = Some id -> Item_findById id db = Some it ->
        available it = true ->
        outcome_of (fst (post_return rt idp db)) = Some Success
        /\ option_map available
             (Item_findById id (snd (post_return rt idp db)))
           = Some (available it)).
Proof.
  split; [|split; [|split]].
  - intros H. rewrite (post_return_no_cast _ _ H). split; reflexivity.
  - intros id H Hf. rewrite (post_return_cast _ _ _ H), returnItem_eq, Hf.
    reflexivity.
  - intros id it H Hf.
    rewrite (post_return_cast _ _ _ H), returnItem_eq, Hf. simpl.
    split; [reflexivity|]. exists (returned it). split.
    + eapply findById_write_same; [eassumption | reflexivity].
    + unfold is_unset. simpl. auto.
  - intros id it H Hf Ha.
    rewrite (post_return_cast _ _ _ H), returnItem_eq, Hf. simpl.
    split; [reflexivity|].
    erewrite findById_write_same; [|eassumption|reflexivity].
    simpl. now rewrite Ha.
Qed.


(** X1: [post_register] refuses a request whose email or password is
    falsy (absent, null, empty, zero or false) with ValidationError, and a
    string email that is already registered with DuplicateError, whatever
    the password.  For a string email that is not registered, a password
    that is truthy but no string makes bcrypt reject and the answer is
    InternalError.  These three leave the store as it was.  A string email
    that is not registered with a string password, the hash not being
    empty, is answered 201: one user is appended, holding the email and the
    bcrypt hash of the password, and the earlier users and the items stay
    as they were. *)
Theorem post_register_outcomes (salt : string) (email' password' : JsonValue)
    (db : Store) :
  (truthy_value email' = false \/ truthy_value password' = false ->
   outcome_of (fst (post_register rt salt email' password' db))
   = Some (Failure ValidationError)
   /\ snd (post_register rt salt email' password' db) = db)
  /\ (forall e u,
        email' = VString e -> e <> "" -> truthy_value password' = true ->
        User_findOne e db = Some u ->
        outcome_of (fst (post_register rt salt email' password' db))
        = Some (Failure DuplicateError)
        /\ snd (post_register rt salt email' password' db) = db)
  /\ (forall e,
        email' = VString e -> e <> "" -> truthy_value password' = true ->
        User_findOne e db = None ->
        (forall p, password' <> VString p) ->
        outcome_of (fst (post_register rt salt email' password' db))
        = Some (Failure InternalError)
        /\ snd (post_register rt salt email' password' db) = db)
  /\ (forall e p,
        email' = VString e -> password' = VString p ->
        e <> "" -> p <> "" ->
        User_findOne e db = None -> bcrypt_hash rt p salt <> "" ->
        outcome_of (fst (post_register rt salt email' password' db))
        = Some Success
        /\ users (snd (post_register rt salt email' password' db))
           = users db ++ [{| email := e; password := bcrypt_hash rt p salt |}]
        /\ items (snd (post_register rt salt email' password' db))
           = items db).
Proof.
  split; [|split; [|split]].
  - intros H. unfold post_register.
    assert (E : negb (truthy_value email') || negb (truthy_value password')
                = true)
      by (destruct H as [-> | ->]; rewrite ?orb_true_r; reflexivity).
    rewrite E. split; reflexivity.
  - intros e u -> He Hp Hu. unfold post_register. simpl.
    apply String.eqb_neq in He. rewrite He, Hp, Hu. split; reflexivity.
  - intros e -> He Hp Hu Hns. unfold post_register. simpl.
    apply String.eqb_neq in He. rewrite He, Hp, Hu. simpl.
    destruct password' as [| |b|n|p|t]; try (split; reflexivity).
    now destruct (Hns p).
  - intros e p -> -> He Hp Hu Hh.
    change (post_register rt salt (VString e) (VString p) db)
      with (post_register rt salt (of_field (Some e)) (of_field (Some p)) db).
    rewrite post_register_fields, register_eq.
    apply String.eqb_neq in He, Hp, Hh. rewrite He, Hp, Hu, Hh.
    repeat split.
Qed.

(** X4: for an email that is a string, [post_login] succeeds exactly when
    the email is not empty, the password is a string that is not empty, a
    user has that email and bcrypt accepts the password against the stored
    hash.  It answers with a server error exactly when the email is
    registered and the password is truthy but no string, which bcrypt
    rejects.  In every other case it fails with ValidationError or
    AuthError. *)
Theorem post_login_success_iff (e : string) (password' : JsonValue)
    (db : Store) :
  (outcome_of (fst (post_login rt (VString e) password' db)) = Some Success
   <-> e <> ""
       /\ exists p u,
            password' = VString p /\ p <> ""
            /\ User_findOne e db = Some u
            /\ bcrypt_compare rt p (password u) = true)
  /\ (outcome_of (fst (post_login rt (VString e) password' db))
      = Some (Failure InternalError)
      <-> e <> "" /\ truthy_value password' = true
          /\ (forall p, password' <> VString p)
          /\ exists u, User_findOne e db = Some u)
  /\ (outcome_of (fst (post_login rt (VString e) password' db)) = Some Success
      \/ outcome_of (fst (post_login rt (VString e) password' db))
         = Some (Failure ValidationError)
      \/ outcome_of (fst (post_login rt (VString e) password' db))
         = Some (Failure AuthError)
      \/ outcome_of (fst (post_login rt (VString e) password' db))
         = Some (Failure InternalError)).
Proof.
  unfold post_login. simpl.
  destruct (String.eqb_spec e "") as [->|He]; simpl.
  { repeat split; try discriminate; try tauto; intros [H _]; now destruct H. }
  destruct (truthy_value password') eqn:Hp; simpl.
  2:{ repeat split; try discriminate; try tauto.
      - intros (_ & p & u & -> & Hne & _). simpl in Hp.
        apply String.eqb_neq in Hne. rewrite Hne in Hp. discriminate.
      - intros (_ & H & _). discriminate. }
  destruct (User_findOne e db) as [u|] eqn:Hu; simpl.
  2:{ repeat split; try discriminate; try tauto.
      - intros (_ & p & u & _ & _ & H & _). discriminate.
      - intros (_ & _ & _ & u & H). discriminate. }
  assert (Hstr : forall p, password' = VString p -> p <> "").
  { intros p -> ->. discriminate. }
  destruct password' as [| |b|n|p|t]; simpl in *; try discriminate.
  1-2,4:
    repeat split; try discriminate; try tauto; try assumption;
    try (intros (_ & p & u' & H & _); discriminate);
    try (now exists u).
  destruct (bcrypt_compare rt p (password u)) eqn:Hc; simpl;
    repeat split; try discriminate; try tauto; try assumption.
  - exists p, u. repeat split; try assumption. now apply Hstr.
  - intros (_ & _ & Hns & _). now destruct (Hns p).
  - intros (_ & p' & u' & Hp' & _ & Hu' & Hc').
    injection Hp' as <-. injection Hu' as <-. congruence.
  - intros (_ & _ & Hns & _). now destruct (Hns p).
Qed.

End Arrivals.

(** ** These theorems on concrete requests *)

Lemma post_book_outcomes_witness :
  (outcome_of
     (fst (post_book Demo.runtime "abc" (Some "2024-01-01") (Some "2024-01-05")
             Demo.ladder_store))
   = Some (Failure InternalError)
   /\ snd (post_book Demo.runtime "abc" (Some "2024-01-01")
             (Some "2024-01-05") Demo.ladder_store)
      = Demo.ladder_store)
  /\ outcome_of
       (fst (post_book Demo.runtime Demo.other_id None None Demo.ladder_store))
     = Some (Failure NotFoundError)
  /\ outcome_of
       (fst (post_book Demo.runtime Demo.ladder_id (Some "2024-02-01")
               (Some "2024-02-05") Demo.booked_store))
     = Some (Failure ConflictError)
  /\ (outcome_of
        (fst (post_book Demo.runtime Demo.ladder_id (Some "2024-01-01")
                (Some "2024-01-05") Demo.ladder_store))
      = Some Success
      /\ (exists it',
            Item_findById 0%nat
              (snd (post_book Demo.runtime Demo.ladder_id (Some "2024-01-01")
                      (Some "2024-01-05") Demo.ladder_store))
            = Some it'
            /\ available it' = false
            /\ rentedFrom it' = DateVal 1704067200000
            /\ rentedTill it' = DateVal 1704412800000)
      /\ (forall s' e',
            outcome_of
              (fst (post_book Demo.runtime Demo.ladder_id s' e'
                      (snd (post_book Demo.runtime Demo.ladder_id
                              (Some "2024-01-01") (Some "2024-01-05")
                              Demo.ladder_store))))
            = Some (Failure ConflictError))).
Proof.
  split; [|split; [|split]].
  - apply (proj1 (post_book_outcomes Demo.runtime "abc" (Some "2024-01-01")
                    (Some "2024-01-05") Demo.ladder_store)).
    reflexivity.
  - apply (proj1 (proj2 (post_book_outcomes Demo.runtime Demo.other_id None
                           None Demo.ladder_store)) 7%nat);
      reflexivity.
  - apply (proj1 (proj2 (proj2 (post_book_outcomes Demo.runtime Demo.ladder_id
                                  (Some "2024-02-01") (Some "2024-02-05")
                                  Demo.booked_store)))
             0%nat (booked Demo.ladder 1704067200000 1704412800000));
      reflexivity.
  - apply (proj2 (proj2 (proj2 (post_book_outcomes Demo.runtime Demo.ladder_id
                                  (Some "2024-01-01") (Some "2024-01-05")
                                  Demo.ladder_store)))
             0%nat Demo.ladder 1704067200000%Z 1704412800000%Z);
      reflexivity.
Defined.

(** C1 as stated fails twice.  The ladder is available, yet booking it from
    "tomorrow" does not succeed: the handler answers 500 and the ladder
    stays available.  And no item has the identifier "abc", yet booking it
    is answered 500, not NotFoundError. *)
Lemma post_book_server_errors :
  (ObjectId_cast Demo.runtime Demo.ladder_id = Some 0%nat
   /\ Item_findById 0%nat Demo.ladder_store = Some Demo.ladder
   /\ available Demo.ladder = true
   /\ post_book Demo.runtime Demo.ladder_id (Some "tomorrow")
        (Some "2024-01-05") Demo.ladder_store
      = (server_error, Demo.ladder_store))
  /\ (ObjectId_cast Demo.runtime "abc" = None
      /\ post_book Demo.runtime "abc" (Some "2024-01-01") (Some "2024-01-05")
           Demo.ladder_store
         = (server_error, Demo.ladder_store))
  /\ outcome_of server_error = Some (Failure InternalError).
Proof. repeat split. Qed.

Lemma post_return_outcomes_witness :
  (outcome_of (fst (post_return Demo.runtime "abc" Demo.booked_store))
   = Some (Failure InternalError)
   /\ snd (post_return Demo.runtime "abc" Demo.booked_store)
      = Demo.booked_store)
  /\ outcome_of (fst (post_return Demo.runtime Demo.other_id Demo.ladder_store))
     = Some (Failure NotFoundError)
  /\ (outcome_of
        (fst (post_return Demo.runtime Demo.ladder_id Demo.booked_store))
      = Some Success
      /\ exists it',
           Item_findById 0%nat
             (snd (post_return Demo.runtime Demo.ladder_id Demo.booked_store))
           = Some it'
           /\ available it' = true
           /\ is_unset (rentedFrom it')
           /\ is_unset (rentedTill it'))
  /\ (outcome_of
        (fst (post_return Demo.runtime Demo.ladder_id Demo.ladder_store))
      = Some Success
      /\ option_map available
           (Item_findById 0%nat
              (snd (post_return Demo.runtime Demo.ladder_id Demo.ladder_store)))
         = Some true).
Proof.
  split; [|split; [|split]].
  - apply (proj1 (post_return_outcomes Demo.runtime "abc" Demo.booked_store)).
    reflexivity.
  - apply (proj1 (proj2 (post_return_outcomes Demo.runtime Demo.other_id
                           Demo.ladder_store)) 7%nat);
      reflexivity.
  - apply (proj1 (proj2 (proj2 (post_return_outcomes Demo.runtime
                                  Demo.ladder_id Demo.booked_store)))
             0%nat (booked Demo.ladder 1704067200000 1704412800000));
      reflexivity.
  - apply (proj2 (proj2 (proj2 (post_return_outcomes Demo.runtime
                                  Demo.ladder_id Demo.ladder_store)))
             0%nat Demo.ladder);
      reflexivity.
Defined.

(** C3 as stated fails: no item has the identifier "abc", yet returning it
    is answered 500, an InternalError, not NotFoundError. *)
Lemma post_return_malformed_id :
  ObjectId_cast Demo.runtime "abc" = None
  /\ post_return Demo.runtime "abc" Demo.ladder_store
     = (server_error, Demo.ladder_store)
  /\ outcome_of server_error = Some (Failure InternalError)
  /\ outcome_of server_error <> Some (Failure NotFoundError).
Proof. repeat split. discriminate. Qed.





Lemma post_register_outcomes_witness :
  (outcome_of
     (fst (post_register Demo.runtime "salt" (VString "b@x.com") VNull
             Demo.alice_store))
   = Some (Failure ValidationError)
   /\ snd (post_register Demo.runtime "salt" (VString "b@x.com") VNull
             Demo.alice_store)
      = Demo.alice_store)
  /\ (outcome_of
        (fst (post_register Demo.runtime "pepper" (VString "a@x.com")
                (VNumber (Fin 123%Q)) Demo.alice_store))
      = Some (Failure DuplicateError)
      /\ snd (post_register Demo.runtime "pepper" (VString "a@x.com")
                (VNumber (Fin 123%Q)) Demo.alice_store)
         = Demo.alice_store)
  /\ (outcome_of
        (fst (post_register Demo.runtime "salt" (VString "b@x.com")
                (VNumber (Fin 123%Q)) Demo.alice_store))
      = Some (Failure InternalError)
      /\ snd (post_register Demo.runtime "salt" (VString "b@x.com")
                (VNumber (Fin 123%Q)) Demo.alice_store)
         = Demo.alice_store)
  /\ (outcome_of
        (fst (post_register Demo.runtime "salt" (VString "a@x.com")
                (VString "secret") empty_store))
      = Some Success
      /\ users
           (snd (post_register Demo.runtime "salt" (VString "a@x.com")
                   (VString "secret") empty_store))
         = [] ++ [Demo.alice]
      /\ items
           (snd (post_register Demo.runtime "salt" (VString "a@x.com")
                   (VString "secret") empty_store))
         = []).
Proof.
  split; [|split; [|split]].
  - apply (proj1 (post_register_outcomes Demo.runtime "salt"
                    (VString "b@x.com") VNull Demo.alice_store)).
    right. reflexivity.
  - apply (proj1 (proj2 (post_register_outcomes Demo.runtime "pepper"
                           (VString "a@x.com") (VNumber (Fin 123%Q))
                           Demo.alice_store))
             "a@x.com" Demo.alice);
      try discriminate; reflexivity.
  - apply (proj1 (proj2 (proj2 (post_register_outcomes Demo.runtime "salt"
                                  (VString "b@x.com") (VNumber (Fin 123%Q))
                                  Demo.alice_store)))
             "b@x.com");
      try discriminate; reflexivity.
  - apply (proj2 (proj2 (proj2 (post_register_outcomes Demo.runtime "salt"
                                  (VString "a@x.com") (VString "secret")
                                  empty_store)))
             "a@x.com" "secret");
      try discriminate; reflexivity.
Defined.

Lemma post_login_success_iff_witness :
  outcome_of
    (fst (post_login Demo.runtime (VString "a@x.com") (VString "secret")
            Demo.alice_store))
  = Some Success
  /\ outcome_of
       (fst (post_login Demo.runtime (VString "a@x.com") (VBool true)
               Demo.alice_store))
     = Some (Failure InternalError).
Proof.
  split.
  - apply (proj1 (post_login_success_iff Demo.runtime "a@x.com"
                    (VString "secret") Demo.alice_store)).
    split; [discriminate|].
    exists "secret", Demo.alice. repeat split. discriminate.
  - apply (proj1 (proj2 (post_login_success_iff Demo.runtime "a@x.com"
                           (VBool true) Demo.alice_store))).
    repeat split; try discriminate. now exists Demo.alice.
Defined.
